(** * Business Ops MCP server: tool dispatch over HTTP and WebSocket

    A shallow embedding of [ai-business-mcp-python/mcp_server.py]
    (class [BusinessMCPServer]) and the properties of its dispatch layer.

    Python objects are embedded as a universe [value] of JSON-shaped data;
    every operation that can raise in Python returns in the error monad
    [res], so that a fault is a value and [try]/[except] is a function.

    Idealisations, all outside the repository's own code:
    - a Python [float] carries the exact rational it stands for (no
      binary64 rounding, no NaN or infinities), and its text is written
      with six decimal places;
    - a [str] is a sequence of bytes ([String.string]);
    - [repr] of a string puts it between single quotes without escaping;
    - the characters written by [json.dumps] and read by [json.loads] are
      represented by the JSON document they spell ([jdoc]); white space and
      escapes are not modelled;
    - [logger] calls have no effect on any result and are left out. *)

From Stdlib Require Import ZArith QArith List String Ascii Bool Lia DecimalString.
Import ListNotations.
Open Scope list_scope.
Open Scope string_scope.

Set Implicit Arguments.
Set Warnings "-register-all".

(* ================================================================== *)
(** ** Python values *)
(* ================================================================== *)

(** Hashable objects that can be dictionary keys. *)
Inductive key : Type :=
| KNone
| KBool (b : bool)
| KInt (z : Z)
| KFloat (q : Q)
| KStr (s : string).

(** A dictionary is an association list in insertion order; the
    operations below keep its keys pairwise different. *)
Inductive value : Type :=
| VNone
| VBool (b : bool)
| VInt (z : Z)
| VFloat (q : Q)
| VStr (s : string)
| VList (l : list value)
| VDict (d : list (key * value)).

Definition dict := list (key * value).

(** ** Exceptions and the error monad *)

Inductive exn : Type :=
| KeyError (k : key)
| TypeError (msg : string)
| AttributeError (msg : string)
| ValueError (msg : string)
| ZeroDivisionError (msg : string)
| OSError (msg : string)
| RuntimeError (msg : string)
| WebSocketDisconnect.

Inductive res (A : Type) : Type :=
| Ok (a : A)
| Raise (e : exn).
Arguments Ok {A} a.
Arguments Raise {A} e.

Definition bind {A B : Type} (c : res A) (k : A -> res B) : res B :=
  match c with
  | Ok a => k a
  | Raise e => Raise e
  end.

Notation "x <- c ;; k" := (bind c (fun x => k))
  (at level 61, c at next level, right associativity).

(** [try: c except Exception as e: h e] *)
Definition try_except {A : Type} (c : res A) (h : exn -> res A) : res A :=
  match c with
  | Ok a => Ok a
  | Raise e => h e
  end.

Fixpoint map_m {A B : Type} (f : A -> res B) (l : list A) : res (list B) :=
  match l with
  | [] => Ok []
  | x :: l' => y <- f x ;; ys <- map_m f l' ;; Ok (y :: ys)
  end.

(** [[x for x in l if p x]] where the test may raise. *)
Fixpoint filter_m {A : Type} (p : A -> res bool) (l : list A) : res (list A) :=
  match l with
  | [] => Ok []
  | x :: l' =>
      b <- p x ;; ys <- filter_m p l' ;; Ok (if b then x :: ys else ys)
  end.

(* ================================================================== *)
(** ** Builtins *)
(* ================================================================== *)

Definition type_name (v : value) : string :=
  match v with
  | VNone => "NoneType"
  | VBool _ => "bool"
  | VInt _ => "int"
  | VFloat _ => "float"
  | VStr _ => "str"
  | VList _ => "list"
  | VDict _ => "dict"
  end.

Definition Q_of_bool (b : bool) : Q := if b then 1%Q else 0%Q.

(** Numeric view of a key: [True == 1 == 1.0] in Python. *)
Definition key_num (k : key) : option Q :=
  match k with
  | KBool b => Some (Q_of_bool b)
  | KInt z => Some (inject_Z z)
  | KFloat q => Some q
  | _ => None
  end.

Definition key_eqb (a b : key) : bool :=
  match key_num a, key_num b with
  | Some x, Some y => Qeq_bool x y
  | None, None =>
      match a, b with
      | KNone, KNone => true
      | KStr s, KStr t => String.eqb s t
      | _, _ => false
      end
  | _, _ => false
  end.

Definition value_of_key (k : key) : value :=
  match k with
  | KNone => VNone
  | KBool b => VBool b
  | KInt z => VInt z
  | KFloat q => VFloat q
  | KStr s => VStr s
  end.

(** [hash(v)]: lists and dictionaries are unhashable. *)
Definition to_key (v : value) : res key :=
  match v with
  | VNone => Ok KNone
  | VBool b => Ok (KBool b)
  | VInt z => Ok (KInt z)
  | VFloat q => Ok (KFloat q)
  | VStr s => Ok (KStr s)
  | VList _ => Raise (TypeError "unhashable type: 'list'")
  | VDict _ => Raise (TypeError "unhashable type: 'dict'")
  end.

Fixpoint dict_get (d : dict) (k : key) : option value :=
  match d with
  | [] => None
  | (k', v) :: d' => if key_eqb k' k then Some v else dict_get d' k
  end.

(** [d[k] = v]: an existing key keeps its place and its key object. *)
Fixpoint dict_set (d : dict) (k : key) (v : value) : dict :=
  match d with
  | [] => [(k, v)]
  | (k', v') :: d' =>
      if key_eqb k' k then (k', v) :: d' else (k', v') :: dict_set d' k v
  end.

Definition dict_keys (d : dict) : list key := map fst d.

(** Numeric view of a value. *)
Definition num (v : value) : option Q :=
  match v with
  | VBool b => Some (Q_of_bool b)
  | VInt z => Some (inject_Z z)
  | VFloat q => Some q
  | _ => None
  end.

(** [a == b] *)
Fixpoint py_eq (a b : value) {struct a} : bool :=
  match a, b with
  | VNone, VNone => true
  | VStr s, VStr t => String.eqb s t
  | VList l, VList m =>
      (fix go (l : list value) (m : list value) {struct l} : bool :=
         match l, m with
         | [], [] => true
         | x :: l', y :: m' => py_eq x y && go l' m'
         | _, _ => false
         end) l m
  | VDict d, VDict e =>
      Nat.eqb (List.length d) (List.length e) &&
      (fix all (d : list (key * value)) : bool :=
         match d with
         | [] => true
         | (k, v) :: d' =>
             match dict_get e k with
             | Some w => py_eq v w
             | None => false
             end && all d'
         end) d
  | VBool x, _ => match num b with Some q => Qeq_bool (Q_of_bool x) q | None => false end
  | VInt x, _ => match num b with Some q => Qeq_bool (inject_Z x) q | None => false end
  | VFloat x, _ => match num b with Some q => Qeq_bool x q | None => false end
  | _, _ => false
  end.

(** [bool(v)] *)
Definition py_truthy (v : value) : bool :=
  match v with
  | VNone => false
  | VBool b => b
  | VInt z => negb (Z.eqb z 0)
  | VFloat q => negb (Qeq_bool q 0)
  | VStr s => negb (String.eqb s EmptyString)
  | VList l => match l with [] => false | _ => true end
  | VDict d => match d with [] => false | _ => true end
  end.

Fixpoint chars (s : string) : list value :=
  match s with
  | EmptyString => []
  | String c s' => VStr (String c EmptyString) :: chars s'
  end.

(** [iter(v)], run to the end. *)
Definition py_iter (v : value) : res (list value) :=
  match v with
  | VList l => Ok l
  | VDict d => Ok (map value_of_key (dict_keys d))
  | VStr s => Ok (chars s)
  | _ => Raise (TypeError ("'" ++ type_name v ++ "' object is not iterable"))
  end.

(** [len(v)] *)
Definition py_len (v : value) : res nat :=
  match v with
  | VList l => Ok (List.length l)
  | VDict d => Ok (List.length d)
  | VStr s => Ok (String.length s)
  | _ => Raise (TypeError ("object of type '" ++ type_name v ++ "' has no len()"))
  end.

(** [v[k]] for a string subscript [k]. *)
Definition py_getitem (v : value) (k : string) : res value :=
  match v with
  | VDict d =>
      match dict_get d (KStr k) with
      | Some x => Ok x
      | None => Raise (KeyError (KStr k))
      end
  | VList _ => Raise (TypeError "list indices must be integers or slices, not str")
  | VStr _ => Raise (TypeError "string indices must be integers, not 'str'")
  | _ => Raise (TypeError ("'" ++ type_name v ++ "' object is not subscriptable"))
  end.

(** [v.get(k, default)] *)
Definition py_get (v : value) (k : string) (default : value) : res value :=
  match v with
  | VDict d =>
      match dict_get d (KStr k) with
      | Some x => Ok x
      | None => Ok default
      end
  | _ => Raise (AttributeError ("'" ++ type_name v ++ "' object has no attribute 'get'"))
  end.

Definition int_val (v : value) : option Z :=
  match v with
  | VBool b => Some (if b then 1%Z else 0%Z)
  | VInt z => Some z
  | _ => None
  end.

(** [a + b] on numbers; the only sums in the program start from [0]. *)
Definition py_add (a b : value) : res value :=
  match int_val a, int_val b with
  | Some x, Some y => Ok (VInt (x + y))
  | _, _ =>
      match num a, num b with
      | Some x, Some y => Ok (VFloat (Qred (x + y)))
      | _, _ =>
          Raise (TypeError ("unsupported operand type(s) for +: '" ++ type_name a
                            ++ "' and '" ++ type_name b ++ "'"))
      end
  end.

(** [a / b] (true division) on numbers. *)
Definition py_truediv (a b : value) : res value :=
  match num a, num b with
  | Some x, Some y =>
      if Qeq_bool y 0 then Raise (ZeroDivisionError "division by zero")
      else Ok (VFloat (Qred (x / y)))
  | _, _ =>
      Raise (TypeError ("unsupported operand type(s) for /: '" ++ type_name a
                        ++ "' and '" ++ type_name b ++ "'"))
  end.

Definition VLen (n : nat) : value := VInt (Z.of_nat n).

(** [sum(f(x) for x in l if cond(x))]: the generator is consumed one
    item at a time, so the test, the projection and the addition of one
    item all happen before the next item is looked at. *)
Fixpoint sum_gen (cond : value -> res bool) (f : value -> res value)
         (l : list value) (acc : value) : res value :=
  match l with
  | [] => Ok acc
  | x :: l' =>
      b <- cond x ;;
      if b then (y <- f x ;; acc' <- py_add acc y ;; sum_gen cond f l' acc')
      else sum_gen cond f l' acc
  end.

Definition always (_ : value) : res bool := Ok true.

(* ------------------------------------------------------------------ *)
(** *** Text of numbers and objects *)

Definition str_of_Z (z : Z) : string := NilZero.string_of_int (Z.to_int z).
Definition str_of_nat (n : nat) : string := str_of_Z (Z.of_nat n).

(** Digits of [n] with a comma every three digits from the right. *)
Fixpoint group3 (fuel : nat) (n : N) : string :=
  match fuel with
  | O => str_of_Z (Z.of_N n)
  | S fuel' =>
      if (n <? 1000)%N then str_of_Z (Z.of_N n)
      else
        let r := (n mod 1000)%N in
        let pad := if (r <? 10)%N then "00" else if (r <? 100)%N then "0" else EmptyString in
        group3 fuel' (n / 1000)%N ++ "," ++ pad ++ str_of_Z (Z.of_N r)
  end.

Definition comma_Z (z : Z) : string :=
  let body := group3 (N.to_nat (N.log2 (Z.abs_N z))) (Z.abs_N z) in
  if (z <? 0)%Z then "-" ++ body else body.

(** [digits] decimal places of the fractional part of a non-negative
    rational, most significant first, truncated. *)
Fixpoint frac_digits (digits : nat) (numer den : Z) : string :=
  match digits with
  | O => EmptyString
  | S d =>
      let n10 := (numer * 10)%Z in
      str_of_Z (n10 / den) ++ frac_digits d (n10 mod den) den
  end.

Definition Qfloor_abs (q : Q) : Z := (Z.abs (Qnum q) / Zpos (Qden q))%Z.
Definition Qfrac_abs (q : Q) : Z := (Z.abs (Qnum q) mod Zpos (Qden q))%Z.

(** [repr] of a float, idealised: six decimal places. *)
Definition repr_float (q : Q) : string :=
  (if (Qnum q <? 0)%Z then "-" else EmptyString) ++
  str_of_Z (Qfloor_abs q) ++ "." ++ frac_digits 6 (Qfrac_abs q) (Zpos (Qden q)).

Definition comma_float (q : Q) : string :=
  (if (Qnum q <? 0)%Z then "-" else EmptyString) ++
  comma_Z (Qfloor_abs q) ++ "." ++ frac_digits 6 (Qfrac_abs q) (Zpos (Qden q)).

(** [format(v, ",")] *)
Definition format_comma (v : value) : res string :=
  match v with
  | VBool b => Ok (if b then "1" else "0")
  | VInt z => Ok (comma_Z z)
  | VFloat q => Ok (comma_float q)
  | _ => Raise (TypeError ("unsupported format string passed to " ++ type_name v
                           ++ ".__format__"))
  end.

(** [format(v, ".1%")]: percentage with one decimal place. *)
Definition format_pct1 (v : value) : res string :=
  match num v with
  | Some q =>
      let m := Qred (q * 1000) in
      let t := Qfloor_abs m in
      let twice := (2 * Qfrac_abs m)%Z in
      let den := Zpos (Qden m) in
      let up := orb (den <? twice)%Z (andb (den =? twice)%Z (Z.odd t)) in
      let t' := if up then (t + 1)%Z else t in
      Ok ((if andb (Qnum m <? 0)%Z (negb (t' =? 0)%Z) then "-" else EmptyString)
          ++ str_of_Z (t' / 10) ++ "." ++ str_of_Z (t' mod 10) ++ "%")
  | None => Raise (TypeError ("unsupported format string passed to " ++ type_name v
                              ++ ".__format__"))
  end.

Fixpoint join (sep : string) (l : list string) : string :=
  match l with
  | [] => EmptyString
  | [s] => s
  | s :: l' => s ++ sep ++ join sep l'
  end.

Definition repr_key (k : key) : string :=
  match k with
  | KNone => "None"
  | KBool b => if b then "True" else "False"
  | KInt z => str_of_Z z
  | KFloat q => repr_float q
  | KStr s => "'" ++ s ++ "'"
  end.

(** [repr(v)] *)
Fixpoint py_repr (v : value) : string :=
  match v with
  | VNone => "None"
  | VBool b => if b then "True" else "False"
  | VInt z => str_of_Z z
  | VFloat q => repr_float q
  | VStr s => "'" ++ s ++ "'"
  | VList l => "[" ++ join ", " (map py_repr l) ++ "]"
  | VDict d =>
      "{" ++ join ", " (map (fun kv => repr_key (fst kv) ++ ": " ++ py_repr (snd kv)) d)
          ++ "}"
  end.

(** [str(v)], what an f-string field [{v}] inserts. *)
Definition py_str (v : value) : string :=
  match v with
  | VStr s => s
  | _ => py_repr v
  end.

(** [sep.join(items)]: every item must be a [str]. *)
Fixpoint str_items (i : nat) (l : list value) : res (list string) :=
  match l with
  | [] => Ok []
  | VStr s :: l' => ss <- str_items (S i) l' ;; Ok (s :: ss)
  | v :: _ =>
      Raise (TypeError ("sequence item " ++ str_of_nat i ++ ": expected str instance, "
                        ++ type_name v ++ " found"))
  end.

Definition py_join (sep : string) (l : list value) : res string :=
  ss <- str_items 0 l ;; Ok (join sep ss).

(** [str(e)] for a caught exception. *)
Definition str_exn (e : exn) : string :=
  match e with
  | KeyError k => repr_key k
  | TypeError m | AttributeError m | ValueError m
  | ZeroDivisionError m | OSError m | RuntimeError m => m
  | WebSocketDisconnect => EmptyString
  end.

(* ================================================================== *)
(** ** JSON text *)
(* ================================================================== *)

(** The document a JSON text spells. Member names are strings and may
    repeat. *)
Inductive jdoc : Type :=
| JNull
| JBool (b : bool)
| JInt (z : Z)
| JFloat (q : Q)
| JString (s : string)
| JArray (items : list jdoc)
| JObject (members : list (string * jdoc)).

(** A piece of text: either it spells a JSON document or it does not. *)
Inductive text : Type :=
| Malformed (raw : string)
| Json (doc : jdoc).

(** [json.dumps] writes a key that is not a [str] as the text of the
    key. *)
Definition key_text (k : key) : string :=
  match k with
  | KNone => "null"
  | KBool b => if b then "true" else "false"
  | KInt z => str_of_Z z
  | KFloat q => repr_float q
  | KStr s => s
  end.

Fixpoint json_encode (v : value) : jdoc :=
  match v with
  | VNone => JNull
  | VBool b => JBool b
  | VInt z => JInt z
  | VFloat q => JFloat q
  | VStr s => JString s
  | VList l => JArray (map json_encode l)
  | VDict d => JObject (map (fun kv => let '(k, x) := kv in (key_text k, json_encode x)) d)
  end.

(** [dict(pairs)]: a repeated key keeps its first place and its last
    value. *)
Definition dict_of_pairs (l : list (key * value)) : dict :=
  fold_left (fun d kv => dict_set d (fst kv) (snd kv)) l [].

Fixpoint json_decode (j : jdoc) : value :=
  match j with
  | JNull => VNone
  | JBool b => VBool b
  | JInt z => VInt z
  | JFloat q => VFloat q
  | JString s => VStr s
  | JArray l => VList (map json_decode l)
  | JObject m =>
      VDict (dict_of_pairs
               (map (fun kx => let '(k, x) := kx in (KStr k, json_decode x)) m))
  end.

(** [json.dumps(v)] and [json.dumps(v, indent=2)] *)
Definition json_dumps (v : value) : text := Json (json_encode v).

(** [json.loads(t)] *)
Definition json_loads (t : text) : res value :=
  match t with
  | Json d => Ok (json_decode d)
  | Malformed _ => Raise (ValueError "Expecting value: line 1 column 1 (char 0)")
  end.

(* ================================================================== *)
(** ** BusinessMCPServer *)
(* ================================================================== *)

(** The data directory: for a path, what [open] followed by [json.load]
    gives, the parsed content or the exception raised (file missing,
    text that is not JSON). *)
Definition files := string -> res value.

Definition load_data (fs : files) (file_name : string) : res value :=
  try_except (fs ("data/" ++ file_name)) (fun _ => Ok (VList [])).

Definition obj (l : list (string * value)) : value :=
  VDict (map (fun kv => (KStr (fst kv), snd kv)) l).

Definition strs (l : list string) : value := VList (map VStr l).

Definition no_properties : value :=
  obj [("type", VStr "object"); ("properties", obj [])].

Definition enum_property (name description : string) (allowed : list string) : value :=
  obj [("type", VStr "object");
       ("properties",
        obj [(name, obj [("type", VStr "string");
                         ("description", VStr description);
                         ("enum", strs allowed)])])].

Definition get_available_tools : value :=
  VList
    [ obj [("name", VStr "get_revenue_summary");
           ("description", VStr "Get total revenue summary from closed sales");
           ("inputSchema", no_properties)];
      obj [("name", VStr "get_top_performers");
           ("description", VStr "Get top performing employees");
           ("inputSchema",
            enum_property "department" "Filter by department (optional)"
              ["Engineering"; "Sales"; "Marketing"; "Support"])];
      obj [("name", VStr "get_open_tickets");
           ("description", VStr "Get count and details of open support tickets");
           ("inputSchema", no_properties)];
      obj [("name", VStr "analyze_sales_performance");
           ("description", VStr "Analyze sales performance by region and status");
           ("inputSchema",
            enum_property "region" "Filter by region (optional)"
              ["North America"; "Europe"; "Asia"])];
      obj [("name", VStr "get_business_overview");
           ("description",
            VStr "Get comprehensive business overview across all departments");
           ("inputSchema", no_properties)] ].

(** [x[f] == v] and [x[f] != v] *)
Definition field_eq (f : string) (v : value) (x : value) : res bool :=
  y <- py_getitem x f ;; Ok (py_eq y v).

Definition field_ne (f : string) (v : value) (x : value) : res bool :=
  y <- py_getitem x f ;; Ok (negb (py_eq y v)).

Definition field (f : string) (x : value) : res value := py_getitem x f.

(** [[x for x in src if p x]] *)
Definition comprehension (src : value) (p : value -> res bool) : res (list value) :=
  items <- py_iter src ;; filter_m p items.

(** [sum(f(x) for x in src if cond(x))] *)
Definition py_sum (src : value) (cond : value -> res bool) (f : value -> res value)
  : res value :=
  items <- py_iter src ;; sum_gen cond f items (VInt 0).

Definition get_revenue_summary (fs : files) : res value :=
  sales_data <- load_data fs "sales.json" ;;
  closed_won <- comprehension sales_data (field_eq "status" (VStr "Closed Won")) ;;
  in_progress <- comprehension sales_data (field_eq "status" (VStr "In Progress")) ;;
  lost <- comprehension sales_data (field_eq "status" (VStr "Lost")) ;;
  total_revenue <- py_sum (VList closed_won) always (field "amount") ;;
  potential_revenue <- py_sum (VList in_progress) always (field "amount") ;;
  win_rate <- (if py_truthy sales_data
               then n <- py_len sales_data ;;
                    py_truediv (VLen (List.length closed_won)) (VLen n)
               else Ok (VInt 0)) ;;
  revenue_text <- format_comma total_revenue ;;
  rate_text <- format_pct1 win_rate ;;
  Ok (obj [("total_closed_revenue", total_revenue);
           ("potential_revenue", potential_revenue);
           ("closed_deals", VLen (List.length closed_won));
           ("deals_in_progress", VLen (List.length in_progress));
           ("lost_deals", VLen (List.length lost));
           ("win_rate", win_rate);
           ("summary",
            VStr ("✅ Total Closed Revenue: $" ++ revenue_text ++ " | 📊 "
                  ++ str_of_nat (List.length closed_won) ++ " closed deals ("
                  ++ rate_text ++ " win rate)"))]).

Definition performer_entry (p : value) : res value :=
  name <- py_getitem p "name" ;;
  department <- py_getitem p "department" ;;
  salary <- py_getitem p "salary" ;;
  performance <- py_getitem p "performance" ;;
  Ok (obj [("name", name); ("department", department);
           ("salary", salary); ("performance", performance)]).

Definition performer_name (p : value) : res value :=
  name <- py_getitem p "name" ;;
  department <- py_getitem p "department" ;;
  Ok (VStr (py_str name ++ " (" ++ py_str department ++ ")")).

Definition get_top_performers (fs : files) (department : value) : res value :=
  hr_data <- load_data fs "hr.json" ;;
  performers <- comprehension hr_data (field_eq "performance" (VStr "Excellent")) ;;
  performers <- (if py_truthy department
                 then comprehension (VList performers) (field_eq "department" department)
                 else Ok performers) ;;
  performer_list <- map_m performer_entry performers ;;
  summary <- (if py_truthy department
              then names <- map_m (field "name") performers ;;
                   joined <- py_join ", " names ;;
                   Ok ("🏆 Top performers in " ++ py_str department ++ ": " ++ joined)
              else performer_names <- map_m performer_name performers ;;
                   joined <- py_join ", " performer_names ;;
                   Ok ("🏆 Top performers across company: " ++ joined)) ;;
  Ok (obj [("top_performers", VList performer_list);
           ("count", VLen (List.length performers));
           ("summary", VStr summary)]).

(** [d[v] = d.get(v, 0) + 1] *)
Definition tally (d : dict) (v : value) : res dict :=
  k <- to_key v ;;
  n <- py_add (match dict_get d k with Some c => c | None => VInt 0 end) (VInt 1) ;;
  Ok (dict_set d k n).

(** The loop of [get_open_tickets] over the open tickets. *)
Fixpoint tally_tickets (tickets : list value) (by_status by_priority : dict)
  : res (dict * dict) :=
  match tickets with
  | [] => Ok (by_status, by_priority)
  | ticket :: rest =>
      status <- py_getitem ticket "status" ;;
      by_status' <- tally by_status status ;;
      priority <- py_getitem ticket "priority" ;;
      by_priority' <- tally by_priority priority ;;
      tally_tickets rest by_status' by_priority'
  end.

Definition tally_text (kc : key * value) : string :=
  py_str (value_of_key (fst kc)) ++ ": " ++ py_str (snd kc).

Definition get_open_tickets (fs : files) : res value :=
  tickets_data <- load_data fs "support.json" ;;
  open_tickets <- comprehension tickets_data (field_ne "status" (VStr "Resolved")) ;;
  tables <- tally_tickets open_tickets [] [] ;;
  let by_status := fst tables in
  let by_priority := snd tables in
  let status_summary := join ", " (map tally_text by_status) in
  Ok (obj [("open_tickets_count", VLen (List.length open_tickets));
           ("tickets_by_status", VDict by_status);
           ("tickets_by_priority", VDict by_priority);
           ("open_tickets", VList open_tickets);
           ("summary",
            VStr ("📩 There are " ++ str_of_nat (List.length open_tickets)
                  ++ " unresolved tickets (" ++ status_summary ++ ")"))]).

(** The loop of [analyze_sales_performance] over the selected sales. *)
Fixpoint tally_sales (sales : list value) (by_status : dict) : res dict :=
  match sales with
  | [] => Ok by_status
  | sale :: rest =>
      status <- py_getitem sale "status" ;;
      by_status' <- tally by_status status ;;
      tally_sales rest by_status'
  end.

Definition analyze_sales_performance (fs : files) (region : value) : res value :=
  sales_data <- load_data fs "sales.json" ;;
  filtered_sales <- (if py_truthy region
                     then l <- comprehension sales_data (field_eq "region" region) ;;
                          Ok (VList l)
                     else Ok sales_data) ;;
  items <- py_iter filtered_sales ;;
  by_status <- tally_sales items [] ;;
  total_amount <- py_sum filtered_sales always (field "amount") ;;
  closed_amount <- py_sum filtered_sales (field_eq "status" (VStr "Closed Won"))
                     (field "amount") ;;
  avg_deal_size <- (if py_truthy filtered_sales
                    then n <- py_len filtered_sales ;; py_truediv total_amount (VLen n)
                    else Ok (VInt 0)) ;;
  total_deals <- py_len filtered_sales ;;
  total_text <- format_comma total_amount ;;
  closed_text <- format_comma closed_amount ;;
  let tail := str_of_nat total_deals ++ " deals totaling $" ++ total_text
              ++ " ($" ++ closed_text ++ " closed)" in
  let summary := if py_truthy region
                 then "📈 Sales in " ++ py_str region ++ ": " ++ tail
                 else "📈 Global Sales: " ++ tail in
  Ok (obj [("region", if py_truthy region then region else VStr "All Regions");
           ("total_deals", VLen total_deals);
           ("total_amount", total_amount);
           ("closed_amount", closed_amount);
           ("deals_by_status", VDict by_status);
           ("average_deal_size", avg_deal_size);
           ("summary", VStr summary)]).

(** [len([e for e in hr_data if e["department"] == name])] *)
Definition headcount (hr_data : value) (name : string) : res value :=
  l <- comprehension hr_data (field_eq "department" (VStr name)) ;;
  Ok (VLen (List.length l)).

Definition get_business_overview (fs : files) : res value :=
  sales_data <- load_data fs "sales.json" ;;
  hr_data <- load_data fs "hr.json" ;;
  support_data <- load_data fs "support.json" ;;
  total_revenue <- py_sum sales_data (field_eq "status" (VStr "Closed Won"))
                     (field "amount") ;;
  total_employees <- py_len hr_data ;;
  open_tickets <- comprehension support_data (field_ne "status" (VStr "Resolved")) ;;
  top_performers <- comprehension hr_data (field_eq "performance" (VStr "Excellent")) ;;
  engineering <- headcount hr_data "Engineering" ;;
  sales <- headcount hr_data "Sales" ;;
  marketing <- headcount hr_data "Marketing" ;;
  support <- headcount hr_data "Support" ;;
  let departments := obj [("Engineering", engineering); ("Sales", sales);
                          ("Marketing", marketing); ("Support", support)] in
  revenue_text <- format_comma total_revenue ;;
  Ok (obj [("business_health",
            obj [("revenue", total_revenue);
                 ("employees", VLen total_employees);
                 ("open_tickets", VLen (List.length open_tickets));
                 ("top_performers", VLen (List.length top_performers));
                 ("customer_satisfaction", VStr "High")]);
           ("departments", departments);
           ("summary",
            VStr ("🏢 Business Overview: $" ++ revenue_text ++ " revenue, "
                  ++ str_of_nat total_employees ++ " employees, "
                  ++ str_of_nat (List.length open_tickets) ++ " open tickets, "
                  ++ str_of_nat (List.length top_performers) ++ " top performers"))]).

Definition error_result (message : string) : value :=
  obj [("error", VStr message)].

(** The body of the [try] block of [handle_tool_call]. *)
Definition run_tool (fs : files) (tool_name arguments : value) : res value :=
  if py_eq tool_name (VStr "get_revenue_summary") then
    get_revenue_summary fs
  else if py_eq tool_name (VStr "get_top_performers") then
    department <- py_get arguments "department" VNone ;;
    get_top_performers fs department
  else if py_eq tool_name (VStr "get_open_tickets") then
    get_open_tickets fs
  else if py_eq tool_name (VStr "analyze_sales_performance") then
    region <- py_get arguments "region" VNone ;;
    analyze_sales_performance fs region
  else if py_eq tool_name (VStr "get_business_overview") then
    get_business_overview fs
  else
    Ok (error_result ("Unknown tool: " ++ py_str tool_name)).

Definition handle_tool_call (fs : files) (tool_name arguments : value) : res value :=
  try_except (run_tool fs tool_name arguments)
             (fun e => Ok (error_result (str_exn e))).

(* ------------------------------------------------------------------ *)
(** *** HTTP route [POST /tools/{tool_name}] *)

(** The handler is declared with [tool_name: str] and
    [arguments: Dict[str, Any]]; a normal return is the body of a
    200 response, a raised exception would be a 500 response. *)
Definition call_tool (fs : files) (tool_name : string) (arguments : dict) : res value :=
  result <- handle_tool_call fs (VStr tool_name) (VDict arguments) ;;
  Ok (obj [("result", result)]).

(** Route [GET /tools]. *)
Definition list_tools : res value := Ok (obj [("tools", get_available_tools)]).

(* ------------------------------------------------------------------ *)
(** *** WebSocket route [/ws] *)

(** The [result] member of a response. *)
Inductive ws_result : Type :=
| Tools (tools : value)          (* {"tools": tools} *)
| Content (embedded : text).     (* {"content": [{"type": "text", "text": embedded}]} *)

(** The dictionary [response] that is serialised and sent. *)
Record ws_response : Type := {
  resp_type : string;
  resp_request_id : value;
  resp_result : ws_result
}.

(** One turn of the [while True] loop as the socket shows it: what
    [receive_text] does, and what a [send_text] in that turn would do. *)
Inductive recv : Type :=
| RecvText (data : text)
| RecvRaise (e : exn).

Record turn : Type := {
  received : recv;
  send_fault : option exn
}.

Definition receive_text (t : turn) : res text :=
  match received t with
  | RecvText data => Ok data
  | RecvRaise e => Raise e
  end.

Definition send_text (t : turn) (r : ws_response) : res ws_response :=
  match send_fault t with
  | None => Ok r
  | Some e => Raise e
  end.

(** The body of the loop: the frame sent in this turn, if any. *)
Definition loop_body (fs : files) (t : turn) : res (option ws_response) :=
  data <- receive_text t ;;
  message <- json_loads data ;;
  type1 <- py_get message "type" VNone ;;
  if py_eq type1 (VStr "tools/list") then
    request_id <- py_get message "request_id" VNone ;;
    let response := {| resp_type := "tools/list";
                       resp_request_id := request_id;
                       resp_result := Tools get_available_tools |} in
    sent <- send_text t response ;;
    Ok (Some sent)
  else
    type2 <- py_get message "type" VNone ;;
    if py_eq type2 (VStr "tools/call") then
      params <- py_get message "params" (VDict []) ;;
      tool_name <- py_get params "name" VNone ;;
      params' <- py_get message "params" (VDict []) ;;
      arguments <- py_get params' "arguments" (VDict []) ;;
      result <- handle_tool_call fs tool_name arguments ;;
      request_id <- py_get message "request_id" VNone ;;
      let response := {| resp_type := "tools/call";
                         resp_request_id := request_id;
                         resp_result := Content (json_dumps result) |} in
      sent <- send_text t response ;;
      Ok (Some sent)
    else
      Ok None.

Definition conn := nat.

(** [clients.remove(ws)]: the first occurrence goes. *)
Fixpoint remove_first (ws : conn) (clients : list conn) : list conn :=
  match clients with
  | [] => []
  | c :: rest => if Nat.eqb c ws then rest else c :: remove_first ws rest
  end.

Inductive conn_state : Type :=
| Open                           (* the loop awaits the next frame *)
| Disconnected                   (* left through [except WebSocketDisconnect] *)
| Failed (e : exn).              (* left through [except Exception] *)

Record session : Type := {
  state : conn_state;
  connected_clients : list conn;
  outbox : list ws_response
}.

Definition is_disconnect (e : exn) : bool :=
  match e with WebSocketDisconnect => true | _ => false end.

(** The [while True] loop with its two handlers, run over the turns the
    socket offers. *)
Fixpoint serve (fs : files) (ws : conn) (clients : list conn)
         (turns : list turn) (sent : list ws_response) : session :=
  match turns with
  | [] => {| state := Open; connected_clients := clients; outbox := sent |}
  | t :: rest =>
      match loop_body fs t with
      | Ok None => serve fs ws clients rest sent
      | Ok (Some r) => serve fs ws clients rest (sent ++ [r])%list
      | Raise e =>
          {| state := if is_disconnect e then Disconnected else Failed e;
             connected_clients := remove_first ws clients;
             outbox := sent |}
      end
  end.

Definition websocket_endpoint (fs : files) (ws : conn) (clients : list conn)
           (turns : list turn) : session :=
  serve fs ws (clients ++ [ws])%list turns [].

(* ================================================================== *)
(** ** BusinessDashboard ([dashboard.py]) *)
(* ================================================================== *)

(** [needle in haystack] for two strings. *)
Fixpoint is_substring (needle haystack : string) : bool :=
  String.prefix needle haystack ||
  match haystack with
  | EmptyString => false
  | String _ rest => is_substring needle rest
  end.

(** ["name" in v] *)
Definition py_contains (name : string) (v : value) : res bool :=
  match v with
  | VDict d => Ok (match dict_get d (KStr name) with Some _ => true | None => false end)
  | VList l => Ok (existsb (fun x => py_eq x (VStr name)) l)
  | VStr s => Ok (is_substring name s)
  | _ => Raise (TypeError ("argument of type '" ++ type_name v ++ "' is not iterable"))
  end.

(** [x.get(f) == v] and [x.get(f) != v] *)
Definition get_eq (f : string) (v : value) (x : value) : res bool :=
  y <- py_get x f VNone ;; Ok (py_eq y v).

Definition get_ne (f : string) (v : value) (x : value) : res bool :=
  y <- py_get x f VNone ;; Ok (negb (py_eq y v)).

(** [x.get(f, 0)] *)
Definition get_or_zero (f : string) (x : value) : res value := py_get x f (VInt 0).

Module BusinessDashboard.

(** What [requests.get] and [requests.post] give back. *)
Record response : Type := {
  status_code : Z;
  body : text
}.

(** The network as the dashboard sees it: for a URL (and a request
    body), a response or the exception raised by [requests]. *)
Definition http_get := string -> res response.
Definition http_post := string -> text -> res response.

Definition mcp_server_url : string := "http://localhost:8000".

(** The three attributes set by [load_data]. *)
Record datasets : Type := {
  sales_data : value;
  hr_data : value;
  support_data : value
}.

Definition no_data : datasets :=
  {| sales_data := VList []; hr_data := VList []; support_data := VList [] |}.

(** [base_path] is the [data] directory beside the script. *)
Definition load_data (fs : files) (base_path : string) : res datasets :=
  try_except
    (sales <- fs (base_path ++ "/sales.json") ;;
     hr <- fs (base_path ++ "/hr.json") ;;
     support <- fs (base_path ++ "/support.json") ;;
     Ok {| sales_data := sales; hr_data := hr; support_data := support |})
    (fun _ => Ok no_data).

Definition test_mcp_connection (requests_get : http_get) : res bool :=
  try_except
    (r <- requests_get (mcp_server_url ++ "/") ;;
     Ok (Z.eqb (status_code r) 200))
    (fun _ => Ok false).

Definition call_mcp_tool (requests_post : http_post) (tool_name : string)
           (arguments : value) : res value :=
  try_except
    (let arguments := match arguments with VNone => VDict [] | _ => arguments end in
     r <- requests_post (mcp_server_url ++ "/tools/" ++ tool_name)
                        (json_dumps arguments) ;;
     if Z.eqb (status_code r) 200
     then decoded <- json_loads (body r) ;; py_get decoded "result" (VDict [])
     else Ok (error_result ("Server returned " ++ str_of_Z (status_code r))))
    (fun e => Ok (error_result ("Connection failed: " ++ str_exn e))).

(** The attributes set by [calculate_metrics]. *)
Record metrics : Type := {
  total_revenue : value;
  avg_deal_size : value;
  win_rate : value;
  total_deals : nat;
  total_employees : nat;
  top_performers : list value;
  avg_salary : value;
  open_tickets : list value;
  resolution_rate : value
}.

Definition calculate_metrics (d : datasets) : res metrics :=
  closed_sales <- comprehension (sales_data d)
                    (get_eq "status" (VStr "Closed Won")) ;;
  total_revenue <- py_sum (VList closed_sales) always (get_or_zero "amount") ;;
  avg_deal_size <- (if py_truthy (VList closed_sales)
                    then py_truediv total_revenue (VLen (List.length closed_sales))
                    else Ok (VInt 0)) ;;
  win_rate <- (if py_truthy (sales_data d)
               then n <- py_len (sales_data d) ;;
                    py_truediv (VLen (List.length closed_sales)) (VLen n)
               else Ok (VInt 0)) ;;
  total_deals <- py_len (sales_data d) ;;
  total_employees <- py_len (hr_data d) ;;
  top_performers <- comprehension (hr_data d)
                      (get_eq "performance" (VStr "Excellent")) ;;
  avg_salary <- (if py_truthy (hr_data d)
                 then salaries <- py_sum (hr_data d) always (get_or_zero "salary") ;;
                      n <- py_len (hr_data d) ;;
                      py_truediv salaries (VLen n)
                 else Ok (VInt 0)) ;;
  open_tickets <- comprehension (support_data d)
                    (get_ne "status" (VStr "Resolved")) ;;
  resolution_rate <- (if py_truthy (support_data d)
                      then resolved <- comprehension (support_data d)
                                         (get_eq "status" (VStr "Resolved")) ;;
                           n <- py_len (support_data d) ;;
                           py_truediv (VLen (List.length resolved)) (VLen n)
                      else Ok (VInt 0)) ;;
  Ok {| total_revenue := total_revenue;
        avg_deal_size := avg_deal_size;
        win_rate := win_rate;
        total_deals := total_deals;
        total_employees := total_employees;
        top_performers := top_performers;
        avg_salary := avg_salary;
        open_tickets := open_tickets;
        resolution_rate := resolution_rate |}.

(** What a tool button of the sidebar shows: [st.sidebar.success] or
    [st.sidebar.error] with its argument. *)
Inductive notice : Type :=
| success (shown : value)
| error (shown : value).

(** The body of a tool button in [display_sidebar]. *)
Definition tool_button (requests_post : http_post) (tool_name : string)
  : res notice :=
  result <- call_mcp_tool requests_post tool_name VNone ;;
  has_error <- py_contains "error" result ;;
  if negb has_error
  then shown <- py_get result "summary" (VStr "Success") ;; Ok (success shown)
  else shown <- py_getitem result "error" ;; Ok (error shown).

End BusinessDashboard.

(* ================================================================== *)
(** ** Vocabulary of the specification *)
(* ================================================================== *)

(** Member [f] of a record, when [x] is a dictionary that has it. *)
Definition get_field (f : string) (x : value) : option value :=
  match x with
  | VDict d => dict_get d (KStr f)
  | _ => None
  end.

Definition has_field (f : string) (x : value) : bool :=
  match get_field f x with Some _ => true | None => false end.

(** The record has member [f] and it equals [v]. *)
Definition has_field_eq (f : string) (v : value) (x : value) : bool :=
  match get_field f x with
  | Some y => py_eq y v
  | None => false
  end.

Definition is_number (v : value) : bool :=
  match v with VInt _ | VFloat _ => true | _ => false end.

Definition is_str (v : value) : bool :=
  match v with VStr _ => true | _ => false end.

(** The names listed by the registry. *)
Definition tool_name_of (t : value) : list string :=
  match get_field "name" t with
  | Some (VStr n) => [n]
  | _ => []
  end.

Definition registry_names : list string :=
  match get_available_tools with
  | VList l => flat_map tool_name_of l
  | _ => []
  end.

Definition registered (name : string) : bool :=
  existsb (String.eqb name) registry_names.

(** [sub] occurs in [s]. *)
Definition contains (s sub : string) : Prop :=
  exists before after, s = before ++ sub ++ after.

(** A dataset that is missing, unreadable or empty. *)
Definition absent_or_empty (fs : files) (file_name : string) : Prop :=
  (exists e, fs ("data/" ++ file_name) = Raise e) \/
  fs ("data/" ++ file_name) = Ok (VList []).

(** *** Sales *)


Definition amount_of (s : value) : Q :=
  match get_field "amount" s with
  | Some a => match num a with Some q => q | None => 0%Q end
  | None => 0%Q
  end.

Definition Qsum (l : list Q) : Q := fold_right Qplus 0%Q l.

Definition with_status (st : string) (sales : list value) : list value :=
  filter (has_field_eq "status" (VStr st)) sales.

Definition revenue_of (st : string) (sales : list value) : Q :=
  Qsum (map amount_of (with_status st sales)).

(** *** Personnel *)

Definition well_formed_employee (e : value) : bool :=
  match get_field "name" e with
  | Some n => is_str n
  | None => false
  end && has_field "department" e && has_field "salary" e
      && has_field "performance" e.

Definition field_or_none (f : string) (x : value) : value :=
  match get_field f x with Some v => v | None => VNone end.

(** The four members of a record that [get_top_performers] reports. *)
Definition performer_view (e : value) : value :=
  obj [("name", field_or_none "name" e);
       ("department", field_or_none "department" e);
       ("salary", field_or_none "salary" e);
       ("performance", field_or_none "performance" e)].

Definition excellent : value -> bool :=
  has_field_eq "performance" (VStr "Excellent").

(** Selection as the code makes it: the department test applies when
    the argument is truthy. *)
Definition selected (department : value) (e : value) : bool :=
  excellent e &&
  (if py_truthy department then has_field_eq "department" department e else true).

(** Selection as the words of the specification read: the department
    test applies whenever a department is given. *)
Definition given (department : value) : bool :=
  match department with VNone => false | _ => true end.

Definition selected_as_specified (department : value) (e : value) : bool :=
  excellent e &&
  (if given department then has_field_eq "department" department e else true).

Definition top_performers_as_specified (fs : files) (department : value) : Prop :=
  exists hr r,
    load_data fs "hr.json" = Ok (VList hr) /\
    get_top_performers fs department = Ok r /\
    py_getitem r "top_performers"
      = Ok (VList (filter (selected_as_specified department) hr)) /\
    py_getitem r "count"
      = Ok (VLen (List.length (filter (selected_as_specified department) hr))).





(** *** Executors as total functions, as the specification words it *)


(** *** Frames on the socket *)

Definition frame (d : jdoc) : turn :=
  {| received := RecvText (Json d); send_fault := None |}.

Definition call_message (request_id : jdoc) (name : string)
           (arguments : list (string * jdoc)) : jdoc :=
  JObject [("type", JString "tools/call");
           ("request_id", request_id);
           ("params", JObject [("name", JString name);
                               ("arguments", JObject arguments)])].

(** The arguments object as the HTTP route receives it. *)
Definition arguments_of (arguments : list (string * jdoc)) : dict :=
  match json_decode (JObject arguments) with
  | VDict d => d
  | _ => []
  end.









(** The result has a [summary] member that is a non-empty string. *)
Definition has_summary (r : value) : Prop :=
  exists s, py_getitem r "summary" = Ok (VStr s) /\ s <> EmptyString.

(** *** Sample data directories *)

Definition no_files : files :=
  fun _ => Raise (OSError "No such file or directory").

Definition with_file (file_name : string) (content : value) (fs : files) : files :=
  fun path => if String.eqb path ("data/" ++ file_name) then Ok content else fs path.

(** The sales dataset of the specification's scenario. *)
Definition scenario_sales : list value :=
  [ obj [("amount", VInt 1000); ("status", VStr "Closed Won")];
    obj [("amount", VInt 500); ("status", VStr "Lost")] ].

Definition scenario_files : files :=
  with_file "sales.json" (VList scenario_sales) no_files.

Definition scenario_revenue_summary : value :=
  obj [("total_closed_revenue", VInt 1000);
       ("potential_revenue", VInt 0);
       ("closed_deals", VInt 1);
       ("deals_in_progress", VInt 0);
       ("lost_deals", VInt 1);
       ("win_rate", VFloat (1 # 2));
       ("summary",
        VStr "✅ Total Closed Revenue: $1,000 | 📊 1 closed deals (50.0% win rate)")].

Definition ada : value :=
  obj [("name", VStr "Ada"); ("department", VStr "Engineering");
       ("salary", VInt 120000); ("performance", VStr "Excellent")].

Definition ada_with_id : value :=
  obj [("id", VInt 1); ("name", VStr "Ada"); ("department", VStr "Engineering");
       ("salary", VInt 120000); ("performance", VStr "Excellent")].

Definition grace : value :=
  obj [("name", VStr "Grace"); ("department", VStr "Sales");
       ("salary", VInt 90000); ("performance", VStr "Good")].

Definition hr_files (hr : list value) : files :=
  with_file "hr.json" (VList hr) no_files.

(** A sales record without a [status]. *)
Definition sales_without_status : files :=
  with_file "sales.json" (VList [obj [("amount", VInt 1000)]]) no_files.

Definition ticket (status priority : string) : value :=
  obj [("status", VStr status); ("priority", VStr priority)].

Definition company_files : files :=
  with_file "sales.json" (VList scenario_sales)
    (with_file "hr.json" (VList [ada; grace])
       (with_file "support.json"
          (VList [ticket "Open" "High"; ticket "Resolved" "Low"]) no_files)).

(** *** Results on missing or empty data *)




(** *** Sample frames *)





(** *** Objects that JSON text carries unchanged *)

Definition str_key (k : key) : bool :=
  match k with KStr _ => true | _ => false end.

Fixpoint keys_distinct (l : list key) : bool :=
  match l with
  | [] => true
  | k :: l' => negb (existsb (key_eqb k) l') && keys_distinct l'
  end.

(** Every dictionary inside [v] has string keys, each once: the shape
    of everything [json.load] returns. *)
Fixpoint json_native (v : value) : bool :=
  match v with
  | VList l => forallb json_native l
  | VDict d =>
      keys_distinct (map fst d) &&
      forallb (fun kv => let '(k, x) := kv in str_key k && json_native x) d
  | _ => true
  end.

(** A support dataset with a number where a status name is expected. *)
Definition numeric_status_files : files :=
  with_file "support.json"
    (VList [obj [("status", VInt 1); ("priority", VStr "High")]]) no_files.

(** All entries of a dictionary have a string key and a native value. *)
Definition entries_native (d : dict) : bool :=
  forallb (fun kv => let '(k, x) := kv in str_key k && json_native x) d.

Definition native_dict (d : dict) : bool :=
  keys_distinct (map fst d) && entries_native d.

(** Member [f] of the record, when present, is a string. *)
Definition label_is_str (f : string) (x : value) : bool :=
  match get_field f x with
  | Some v => is_str v
  | None => true
  end.

(** Every readable file holds what [json.load] can return. *)
Definition native_files (fs : files) : Prop :=
  forall path v, fs path = Ok v -> json_native v = true.

(** The [status] and [priority] of every record are strings. *)
Definition labels_are_strings (fs : files) : Prop :=
  forall path v items x,
    fs path = Ok v -> py_iter v = Ok items -> In x items ->
    label_is_str "status" x = true /\ label_is_str "priority" x = true.

(** The frames sent in answer to one turn. *)
Definition answered (fs : files) (t : turn) : list ws_response :=
  match loop_body fs t with
  | Ok (Some r) => [r]
  | _ => []
  end.

(** A number, a string, a truth value or [None]. *)
Definition atom (v : value) : bool :=
  match v with VList _ | VDict _ => false | _ => true end.

(** *** Frequency tables *)

(** The count a frequency table holds for a key, [0] when absent. *)
Definition count_of (d : dict) (k : key) : Z :=
  match dict_get d k with
  | Some (VInt n) => n
  | _ => 0%Z
  end.

(** Every count in the table is a positive integer. *)
Definition int_table (d : dict) : bool :=
  forallb (fun kv => match snd kv with VInt n => (1 <=? n)%Z | _ => false end) d.

(** The sum of the counts of a table. *)
Definition table_total (d : dict) : Z :=
  fold_right (fun kv acc => match snd kv with VInt n => (n + acc)%Z | _ => acc end)
             0%Z d.

(** Member [f] of the record as a dictionary key. *)
Definition label_key (f : string) (x : value) : option key :=
  match get_field f x with
  | Some v => match to_key v with Ok k => Some k | Raise _ => None end
  | None => None
  end.

Definition has_label (f : string) (x : value) : bool :=
  match label_key f x with Some _ => true | None => false end.

(** How many of the records have member [f] equal to the key. *)
Definition occurrences (f : string) (k : key) (l : list value) : Z :=
  Z.of_nat (List.length
              (filter (fun x => match label_key f x with
                                | Some k' => key_eqb k' k
                                | None => false
                                end) l)).

(** The tickets that are not resolved. *)
Definition unresolved (tickets : list value) : list value :=
  filter (fun t => negb (has_field_eq "status" (VStr "Resolved") t)) tickets.

(** How often a connection occurs in the registry. *)
Definition registrations (c : conn) (clients : list conn) : nat :=
  List.length (filter (Nat.eqb c) clients).

Definition is_open (s : conn_state) : bool :=
  match s with Open => true | _ => false end.

Definition list_message (request_id : jdoc) : jdoc :=
  JObject [("type", JString "tools/list"); ("request_id", request_id)].

(** *** The dashboard and the server *)

(** The transport carries a request to [POST /tools/{name}] of the
    server and the answer back: the body is decoded into the arguments
    object, and a normal return of [call_tool] comes back as a 200
    response whose body is that return, serialised. *)
Definition delivers (fs : files) (requests_post : BusinessDashboard.http_post) : Prop :=
  forall name members,
    requests_post (BusinessDashboard.mcp_server_url ++ "/tools/" ++ name)
                  (Json (JObject members))
    = (answer <- call_tool fs name (arguments_of members) ;;
       Ok {| BusinessDashboard.status_code := 200;
             BusinessDashboard.body := json_dumps answer |}).

(** The rest of a string after a given beginning. *)
Fixpoint strip_prefix (p s : string) : option string :=
  match p with
  | EmptyString => Some s
  | String a p' =>
      match s with
      | String b s' => if Ascii.eqb a b then strip_prefix p' s' else None
      | EmptyString => None
      end
  end.

(** A transport that does deliver, for the sample runs: the server
    called in place. *)
Definition loopback (fs : files) : BusinessDashboard.http_post :=
  fun url request =>
    match strip_prefix (BusinessDashboard.mcp_server_url ++ "/tools/") url, request with
    | Some name, Json (JObject members) =>
        answer <- call_tool fs name (arguments_of members) ;;
        Ok {| BusinessDashboard.status_code := 200;
              BusinessDashboard.body := json_dumps answer |}
    | _, _ => Ok {| BusinessDashboard.status_code := 404;
                    BusinessDashboard.body := Json (JObject []) |}
    end.

(** A transport on which every request fails. *)
Definition unreachable : BusinessDashboard.http_post :=
  fun _ _ => Raise (OSError "Connection refused").

(** The datasets of the sample company, as the dashboard holds them. *)
Definition company_datasets : BusinessDashboard.datasets :=
  {| BusinessDashboard.sales_data := VList scenario_sales;
     BusinessDashboard.hr_data := VList [ada; grace];
     BusinessDashboard.support_data :=
       VList [ticket "Open" "High"; ticket "Resolved" "Low"] |}.

(** Records that lack the members the server's executors subscript. *)
Definition sparse_datasets : BusinessDashboard.datasets :=
  {| BusinessDashboard.sales_data :=
       VList [obj [("amount", VInt 1000)]; obj [("status", VStr "Closed Won")]];
     BusinessDashboard.hr_data := VList [obj [("name", VStr "Ada")]];
     BusinessDashboard.support_data := VList [obj [("priority", VStr "High")]] |}.

(** A record the dashboard's metrics put up with: a dictionary whose
    member [f], when there is one, is a number. *)
Definition tolerated (f : string) (x : value) : bool :=
  match x with
  | VDict d => match dict_get d (KStr f) with
               | Some v => is_number v
               | None => true
               end
  | _ => false
  end.

Definition is_dict (x : value) : bool :=
  match x with VDict _ => true | _ => false end.

(** The passage of a value through [json.dumps] and [json.loads]. *)
Definition through_json (v : value) : value := json_decode (json_encode v).

(* ================================================================== *)
(** * Properties *)
(* ================================================================== *)

Unset Implicit Arguments.

(** ** The error monad *)

Lemma bind_ok (A B : Type) (c : res A) (k : A -> res B) (r : B) :
  bind c k = Ok r -> exists a, c = Ok a /\ k a = Ok r.
Proof.
  destruct c as [a|e]; simpl; intro H; [exists a; auto | discriminate].
Qed.


Lemma try_except_total (A : Type) (c : res A) (h : exn -> A) :
  exists a, try_except c (fun e => Ok (h e)) = Ok a.
Proof.
  destruct c as [a|e]; simpl; eauto.
Qed.

(** Split a hypothesis [x <- c ;; k = Ok r] into its two runs. *)
Ltac inv_bind H :=
  let a := fresh "x" in
  let Ha := fresh "Hx" in
  apply bind_ok in H; destruct H as (a & Ha & H).

Ltac inv_binds H := repeat inv_bind H.

(** ** Strings *)

Lemma append_nonempty (a b : string) : a <> EmptyString -> a ++ b <> EmptyString.
Proof.
  destruct a; simpl; [congruence | discriminate].
Qed.

Lemma contains_suffix (prefix sub : string) : contains (prefix ++ sub) sub.
Proof.
  exists prefix, EmptyString. f_equal.
  induction sub; simpl; [reflexivity | now rewrite <- IHsub].
Qed.

(** ** Equality and lookup *)

Lemma py_eq_str (v : value) (s : string) :
  py_eq v (VStr s) = true <-> v = VStr s.
Proof.
  destruct v; simpl; split; intro H; try discriminate.
  - apply String.eqb_eq in H. now subst.
  - inversion H. apply String.eqb_refl.
Qed.

Lemma py_getitem_field (x : value) (f : string) (y : value) :
  py_getitem x f = Ok y <-> get_field f x = Some y.
Proof.
  destruct x; simpl; split; intro H; try discriminate.
  - destruct (dict_get d (KStr f)); congruence.
  - now rewrite H.
Qed.

Lemma field_eq_spec (f : string) (v x : value) (b : bool) :
  field_eq f v x = Ok b -> has_field_eq f v x = b.
Proof.
  unfold field_eq, has_field_eq. intro H. inv_bind H.
  apply py_getitem_field in Hx. rewrite Hx. congruence.
Qed.

Lemma field_eq_present (f : string) (v x : value) :
  has_field f x = true -> field_eq f v x = Ok (has_field_eq f v x).
Proof.
  unfold has_field, field_eq, has_field_eq.
  destruct (get_field f x) eqn:E; [|discriminate]. intros _.
  apply py_getitem_field in E. now rewrite E.
Qed.


(** A comprehension that does not raise is the filter by the same
    test. *)
Lemma filter_m_field_eq (f : string) (v : value) (l l' : list value) :
  filter_m (field_eq f v) l = Ok l' -> l' = filter (has_field_eq f v) l.
Proof.
  revert l'. induction l as [|x l IH]; simpl; intros l' H.
  - congruence.
  - inv_binds H. apply field_eq_spec in Hx. rewrite Hx.
    rewrite <- (IH _ Hx0). congruence.
Qed.

Lemma filter_m_present (f : string) (v : value) (l : list value) :
  forallb (has_field f) l = true ->
  filter_m (field_eq f v) l = Ok (filter (has_field_eq f v) l).
Proof.
  induction l as [|x l IH]; simpl; intro H; [reflexivity|].
  apply andb_true_iff in H. destruct H as [Hx Hl].
  rewrite (field_eq_present f v x Hx). simpl. rewrite (IH Hl). reflexivity.
Qed.


Lemma forallb_weaken (A : Type) (p q : A -> bool) (l : list A) :
  (forall x, p x = true -> q x = true) ->
  forallb p l = true -> forallb q l = true.
Proof.
  intros Hpq. induction l; simpl; [auto|].
  intro H. apply andb_true_iff in H. destruct H.
  apply andb_true_iff. auto.
Qed.

Lemma forallb_filter (A : Type) (p q : A -> bool) (l : list A) :
  forallb p l = true -> forallb p (filter q l) = true.
Proof.
  induction l; simpl; [auto|]. intro H.
  apply andb_true_iff in H. destruct H as [Ha Hl].
  destruct (q a); simpl; [rewrite Ha|]; auto.
Qed.

(** ** Data access and dispatch never raise *)


Lemma load_data_absent_or_empty (fs : files) (file_name : string) :
  absent_or_empty fs file_name -> load_data fs file_name = Ok (VList []).
Proof.
  unfold load_data. intros [[e H]|H]; rewrite H; reflexivity.
Qed.

Lemma handle_tool_call_total (fs : files) (tool_name arguments : value) :
  exists result, handle_tool_call fs tool_name arguments = Ok result.
Proof.
  unfold handle_tool_call. apply try_except_total.
Qed.

Lemma registry_names_eq :
  registry_names = ["get_revenue_summary"; "get_top_performers"; "get_open_tickets";
                    "analyze_sales_performance"; "get_business_overview"].
Proof. reflexivity. Qed.

Lemma run_tool_unknown (fs : files) (name : string) (arguments : value) :
  registered name = false ->
  run_tool fs (VStr name) arguments = Ok (error_result ("Unknown tool: " ++ name)).
Proof.
  unfold registered. rewrite registry_names_eq. simpl. intro H.
  repeat (apply orb_false_iff in H; destruct H as [? H]).
  unfold run_tool. simpl. now rewrite H0, H1, H2, H3, H4.
Qed.

(** C2: a name outside the registry is answered by the failure envelope
    [{"error": "Unknown tool: <name>"}], whose message contains the
    name; no exception leaves [handle_tool_call]. *)
Theorem C2_unknown_tool_failure (fs : files) (name : string) (arguments : value) :
  ~ In name registry_names ->
  exists message,
    handle_tool_call fs (VStr name) arguments = Ok (error_result message) /\
    message = "Unknown tool: " ++ name /\
    contains message name.
Proof.
  intro Hn. exists ("Unknown tool: " ++ name).
  assert (Hr : registered name = false).
  { unfold registered. destruct (existsb _ _) eqn:E; [|reflexivity].
    apply existsb_exists in E. destruct E as (n & Hin & He).
    apply String.eqb_eq in He. subst. contradiction. }
  unfold handle_tool_call. rewrite (run_tool_unknown fs name arguments Hr).
  repeat split. apply contains_suffix.
Qed.

Lemma C2_unknown_tool_failure_witness :
  ~ In "delete_everything" registry_names /\
  exists message,
    handle_tool_call (fun _ => Raise (OSError "No such file or directory"))
      (VStr "delete_everything") (VDict []) = Ok (error_result message) /\
    message = "Unknown tool: " ++ "delete_everything" /\
    contains message "delete_everything".
Proof.
  assert (H : ~ In "delete_everything" registry_names).
  { rewrite registry_names_eq. simpl. intuition discriminate. }
  split; [exact H|].
  exact (C2_unknown_tool_failure (fun _ => Raise (OSError "No such file or directory"))
           "delete_everything" (VDict []) H).
Defined.


(** ** Summaries *)

Ltac starts_with_literal :=
  first [discriminate | apply append_nonempty; discriminate].

Ltac summary_literal :=
  eexists; split; [reflexivity | starts_with_literal].

Lemma get_revenue_summary_has_summary (fs : files) (r : value) :
  get_revenue_summary fs = Ok r -> has_summary r.
Proof.
  unfold get_revenue_summary. intro H. inv_binds H.
  injection H as <-. summary_literal.
Qed.

Lemma get_top_performers_has_summary (fs : files) (department r : value) :
  get_top_performers fs department = Ok r -> has_summary r.
Proof.
  unfold get_top_performers. intro H. inv_binds H.
  injection H as <-.
  exists x3. split; [reflexivity|].
  destruct (py_truthy department); inv_binds Hx3; injection Hx3 as <-;
    starts_with_literal.
Qed.

Lemma get_open_tickets_has_summary (fs : files) (r : value) :
  get_open_tickets fs = Ok r -> has_summary r.
Proof.
  unfold get_open_tickets. intro H. inv_binds H.
  injection H as <-. summary_literal.
Qed.

Lemma analyze_sales_performance_has_summary (fs : files) (region r : value) :
  analyze_sales_performance fs region = Ok r -> has_summary r.
Proof.
  unfold analyze_sales_performance. intro H. inv_binds H.
  injection H as <-.
  eexists; split; [reflexivity|].
  destruct (py_truthy region); starts_with_literal.
Qed.

Lemma get_business_overview_has_summary (fs : files) (r : value) :
  get_business_overview fs = Ok r -> has_summary r.
Proof.
  unfold get_business_overview. intro H. inv_binds H.
  injection H as <-. summary_literal.
Qed.

(** C7: whenever the executor of a registered tool returns normally, its
    result has a [summary] member that is a non-empty string. *)
Theorem C7_summary_present_on_success
        (fs : files) (name : string) (arguments result : value) :
  In name registry_names ->
  run_tool fs (VStr name) arguments = Ok result ->
  handle_tool_call fs (VStr name) arguments = Ok result /\
  exists summary,
    py_getitem result "summary" = Ok (VStr summary) /\ summary <> EmptyString.
Proof.
  intros Hin Hrun. split.
  { unfold handle_tool_call. now rewrite Hrun. }
  rewrite registry_names_eq in Hin. simpl in Hin.
  unfold run_tool in Hrun.
  destruct Hin as [<-|[<-|[<-|[<-|[<-|[]]]]]]; simpl in Hrun.
  - eapply get_revenue_summary_has_summary; eauto.
  - inv_bind Hrun. eapply get_top_performers_has_summary; eauto.
  - eapply get_open_tickets_has_summary; eauto.
  - inv_bind Hrun. eapply analyze_sales_performance_has_summary; eauto.
  - eapply get_business_overview_has_summary; eauto.
Qed.

(** ** Revenue *)

Lemma bind_Ok (A B : Type) (a : A) (k : A -> res B) : bind (Ok a) k = k a.
Proof. reflexivity. Qed.

Lemma comprehension_list (l : list value) (p : value -> res bool) :
  comprehension (VList l) p = filter_m p l.
Proof. reflexivity. Qed.

Lemma py_sum_list (l : list value) (c : value -> res bool) (f : value -> res value) :
  py_sum (VList l) c f = sum_gen c f l (VInt 0).
Proof. reflexivity. Qed.

Lemma py_add_numbers (a b : value) :
  is_number a = true -> is_number b = true ->
  exists c qa qb qc,
    py_add a b = Ok c /\ is_number c = true /\
    num a = Some qa /\ num b = Some qb /\ num c = Some qc /\ (qc == qa + qb)%Q.
Proof.
  destruct a, b; try discriminate; intros _ _; unfold py_add;
    cbn -[Qred Qplus inject_Z Z.add].
  - exists (VInt (z + z0)), (inject_Z z), (inject_Z z0), (inject_Z (z + z0)).
    repeat (split; [reflexivity|]). now rewrite inject_Z_plus.
  - eexists _, _, _, _. repeat (split; [reflexivity|]). apply Qred_correct.
  - eexists _, _, _, _. repeat (split; [reflexivity|]). apply Qred_correct.
  - eexists _, _, _, _. repeat (split; [reflexivity|]). apply Qred_correct.
Qed.






Lemma VLen_not_zero (n : nat) :
  n <> 0%nat -> Qeq_bool (inject_Z (Z.of_nat n)) 0 = false.
Proof.
  intro H. destruct (Qeq_bool _ _) eqn:E; [|reflexivity].
  apply Qeq_bool_eq in E. unfold Qeq in E. simpl in E. lia.
Qed.

(** [a / b] on two lengths, the second not zero. *)
Lemma py_truediv_lengths (a b : nat) :
  b <> 0%nat ->
  exists q, py_truediv (VLen a) (VLen b) = Ok (VFloat q) /\
            (q == inject_Z (Z.of_nat a) / inject_Z (Z.of_nat b))%Q.
Proof.
  intro Hb. unfold py_truediv, VLen. cbn [num].
  rewrite (VLen_not_zero b Hb). eexists. split; [reflexivity|].
  apply Qred_correct.
Qed.


Example revenue_summary_scenario :
  get_revenue_summary scenario_files = Ok scenario_revenue_summary.
Proof. vm_compute. reflexivity. Qed.

Example revenue_summary_no_file :
  exists r, get_revenue_summary no_files = Ok r /\
            py_getitem r "win_rate" = Ok (VInt 0) /\
            py_getitem r "total_closed_revenue" = Ok (VInt 0).
Proof. eexists. repeat split. Qed.


Lemma C7_summary_present_on_success_witness :
  In "get_revenue_summary" registry_names /\
  run_tool scenario_files (VStr "get_revenue_summary") (VDict [])
    = Ok scenario_revenue_summary /\
  handle_tool_call scenario_files (VStr "get_revenue_summary") (VDict [])
    = Ok scenario_revenue_summary /\
  exists summary,
    py_getitem scenario_revenue_summary "summary" = Ok (VStr summary) /\ summary <> EmptyString.
Proof.
  assert (Hin : In "get_revenue_summary" registry_names) by (left; reflexivity).
  assert (Hrun : run_tool scenario_files (VStr "get_revenue_summary") (VDict [])
                 = Ok scenario_revenue_summary) by (vm_compute; reflexivity).
  split; [exact Hin|]. split; [exact Hrun|].
  exact (C7_summary_present_on_success scenario_files "get_revenue_summary"
           (VDict []) scenario_revenue_summary Hin Hrun).
Defined.

(** ** Top performers *)

Lemma map_m_ok (A B : Type) (f : A -> res B) (g : A -> B) (l : list A) :
  (forall x, In x l -> f x = Ok (g x)) -> map_m f l = Ok (map g l).
Proof.
  induction l as [|x l IH]; simpl; intro H; [reflexivity|].
  rewrite (H x (or_introl eq_refl)), bind_Ok, IH; auto.
Qed.

Lemma filter_twice (A : Type) (p q : A -> bool) (l : list A) :
  filter q (filter p l) = filter (fun x => p x && q x) l.
Proof.
  induction l as [|x l IH]; simpl; [reflexivity|].
  destruct (p x); simpl; [destruct (q x)|]; now rewrite IH.
Qed.

Lemma forallb_In (A : Type) (p : A -> bool) (l : list A) (x : A) :
  forallb p l = true -> In x l -> p x = true.
Proof.
  intros H Hin. rewrite forallb_forall in H. auto.
Qed.

Lemma has_field_getitem (f : string) (x : value) :
  has_field f x = true -> py_getitem x f = Ok (field_or_none f x).
Proof.
  unfold has_field, field_or_none.
  destruct (get_field f x) eqn:E; [|discriminate]. intros _.
  now apply py_getitem_field.
Qed.

Lemma well_formed_employee_fields (e : value) :
  well_formed_employee e = true ->
  is_str (field_or_none "name" e) = true /\
  has_field "name" e = true /\ has_field "department" e = true /\
  has_field "salary" e = true /\ has_field "performance" e = true.
Proof.
  unfold well_formed_employee, has_field at 1, field_or_none. intro H.
  repeat (apply andb_true_iff in H; destruct H as [H ?]).
  unfold has_field at 1.
  destruct (get_field "name" e); [|discriminate]. auto.
Qed.

Lemma performer_entry_view (e : value) :
  well_formed_employee e = true -> performer_entry e = Ok (performer_view e).
Proof.
  intro H. apply well_formed_employee_fields in H.
  destruct H as (_ & Hn & Hd & Hs & Hp).
  unfold performer_entry.
  rewrite (has_field_getitem _ _ Hn), (has_field_getitem _ _ Hd),
    (has_field_getitem _ _ Hs), (has_field_getitem _ _ Hp).
  reflexivity.
Qed.

Lemma str_items_strs (l : list value) :
  forallb is_str l = true -> forall i, exists ss, str_items i l = Ok ss.
Proof.
  induction l as [|v l IH]; simpl; intros H i; [eauto|].
  apply andb_true_iff in H. destruct H as [Hv Hl].
  destruct v; try discriminate.
  destruct (IH Hl (S i)) as [ss Hss]. rewrite Hss. simpl. eauto.
Qed.

Lemma py_join_strs (sep : string) (l : list value) :
  forallb is_str l = true -> exists s, py_join sep l = Ok s.
Proof.
  intro H. unfold py_join. destruct (str_items_strs l H 0) as [ss Hss].
  rewrite Hss. simpl. eauto.
Qed.

Lemma forallb_map (A B : Type) (f : A -> B) (p : B -> bool) (l : list A) :
  (forall x, In x l -> p (f x) = true) -> forallb p (map f l) = true.
Proof.
  induction l as [|x l IH]; simpl; intro H; [reflexivity|].
  rewrite (H x (or_introl eq_refl)), IH; auto.
Qed.

(** On well-formed personnel records the executor returns, and what it
    returns is the projection of the selected records. *)
Lemma get_top_performers_well_formed
      (fs : files) (hr : list value) (department : value) :
  load_data fs "hr.json" = Ok (VList hr) ->
  forallb well_formed_employee hr = true ->
  exists r performer_list,
    get_top_performers fs department = Ok r /\
    performer_list = map performer_view (filter (selected department) hr) /\
    py_getitem r "top_performers" = Ok (VList performer_list) /\
    py_getitem r "count" = Ok (VLen (List.length performer_list)).
Proof.
  intros Hload Hwf.
  assert (Hperf : forallb (has_field "performance") hr = true).
  { eapply forallb_weaken; [|exact Hwf].
    intros x Hx. now apply well_formed_employee_fields in Hx. }
  unfold get_top_performers. rewrite Hload, bind_Ok, comprehension_list.
  rewrite (filter_m_present "performance" _ hr Hperf), bind_Ok.
  fold excellent.
  assert (Hsel : (if py_truthy department
                  then comprehension (VList (filter excellent hr))
                         (field_eq "department" department)
                  else Ok (filter excellent hr))
                 = Ok (filter (selected department) hr)).
  { unfold selected. destruct (py_truthy department).
    - rewrite comprehension_list, filter_m_present.
      + now rewrite filter_twice.
      + apply forallb_filter. eapply forallb_weaken; [|exact Hwf].
        intros x Hx. now apply well_formed_employee_fields in Hx.
    - f_equal. apply filter_ext. intro x. now rewrite andb_true_r. }
  rewrite Hsel, bind_Ok.
  set (chosen := filter (selected department) hr).
  assert (Hchosen : forallb well_formed_employee chosen = true)
    by (apply forallb_filter; exact Hwf).
  rewrite (map_m_ok _ _ performer_entry performer_view chosen), bind_Ok.
  2:{ intros x Hx. apply performer_entry_view. eapply forallb_In; eauto. }
  assert (Hsum : exists summary,
    (if py_truthy department
     then names <- map_m (field "name") chosen ;;
          joined <- py_join ", " names ;;
          Ok ("🏆 Top performers in " ++ py_str department ++ ": " ++ joined)
     else performer_names <- map_m performer_name chosen ;;
          joined <- py_join ", " performer_names ;;
          Ok ("🏆 Top performers across company: " ++ joined)) = Ok summary).
  { destruct (py_truthy department).
    - rewrite (map_m_ok _ _ (field "name") (field_or_none "name") chosen), bind_Ok.
      2:{ intros x Hx. apply has_field_getitem.
          apply (forallb_In _ _ _ _ Hchosen) in Hx.
          now apply well_formed_employee_fields in Hx. }
      destruct (py_join_strs ", " (map (field_or_none "name") chosen)) as [j Hj].
      { apply forallb_map. intros x Hx.
        apply (forallb_In _ _ _ _ Hchosen) in Hx.
        now apply well_formed_employee_fields in Hx. }
      rewrite Hj, bind_Ok. eauto.
    - rewrite (map_m_ok _ _ performer_name
                 (fun p => VStr (py_str (field_or_none "name" p) ++ " ("
                                 ++ py_str (field_or_none "department" p) ++ ")"))
                 chosen), bind_Ok.
      2:{ intros x Hx. apply (forallb_In _ _ _ _ Hchosen) in Hx.
          apply well_formed_employee_fields in Hx.
          destruct Hx as (_ & Hn & Hd & _). unfold performer_name.
          now rewrite (has_field_getitem _ _ Hn), (has_field_getitem _ _ Hd). }
      destruct (py_join_strs ", "
                  (map (fun p => VStr (py_str (field_or_none "name" p) ++ " ("
                                       ++ py_str (field_or_none "department" p) ++ ")"))
                       chosen)) as [j Hj].
      { apply forallb_map. reflexivity. }
      rewrite Hj, bind_Ok. eauto. }
  destruct Hsum as [summary Hsum]. rewrite Hsum, bind_Ok.
  eexists _, _. split; [reflexivity|]. split; [reflexivity|].
  split; [reflexivity|].
  rewrite length_map. reflexivity.
Qed.

Lemma field_or_none_getitem (f : string) (x v : value) :
  py_getitem x f = Ok v -> field_or_none f x = v.
Proof.
  intro H. apply py_getitem_field in H. unfold field_or_none. now rewrite H.
Qed.

Lemma performer_entry_spec (p entry : value) :
  performer_entry p = Ok entry -> entry = performer_view p.
Proof.
  unfold performer_entry, performer_view. intro H. inv_binds H. injection H as <-.
  now rewrite (field_or_none_getitem _ _ _ Hx), (field_or_none_getitem _ _ _ Hx0),
    (field_or_none_getitem _ _ _ Hx1), (field_or_none_getitem _ _ _ Hx2).
Qed.

Lemma map_m_spec (A B : Type) (f : A -> res B) (g : A -> B) (l : list A) (l' : list B) :
  (forall x y, f x = Ok y -> y = g x) -> map_m f l = Ok l' -> l' = map g l.
Proof.
  intro Hf. revert l'. induction l as [|x l IH]; simpl; intros l' H.
  - now injection H as <-.
  - inv_binds H. injection H as <-. now rewrite (Hf _ _ Hx), (IH _ Hx0).
Qed.

(** C5, as the code does it: whenever [get_top_performers] returns, the
    list it reports holds, in dataset order, the [name], [department],
    [salary] and [performance] members of exactly the records with
    performance "Excellent" whose department equals the argument when
    the argument is truthy (no department test for [None] or the empty
    string); [count] is the length of that list, [0] when it is empty;
    and it does return on every dataset whose records carry those four
    members. *)
Theorem C5_top_performers (fs : files) (department : value) :
  (forall r, get_top_performers fs department = Ok r ->
     exists hr_data hr performer_list,
       load_data fs "hr.json" = Ok hr_data /\ py_iter hr_data = Ok hr /\
       performer_list = map performer_view (filter (selected department) hr) /\
       py_getitem r "top_performers" = Ok (VList performer_list) /\
       py_getitem r "count" = Ok (VLen (List.length performer_list))) /\
  (forall hr,
     load_data fs "hr.json" = Ok (VList hr) ->
     forallb well_formed_employee hr = true ->
     exists r, get_top_performers fs department = Ok r).
Proof.
  split.
  - intros r H. unfold get_top_performers in H. inv_binds H. injection H as <-.
    unfold comprehension in Hx0. inv_bind Hx0. rename x4 into hr.
    apply filter_m_field_eq in Hx0. fold excellent in Hx0. subst x0.
    assert (Hsel : x1 = filter (selected department) hr).
    { unfold selected. destruct (py_truthy department).
      - rewrite comprehension_list in Hx1. apply filter_m_field_eq in Hx1.
        subst x1. apply filter_twice.
      - injection Hx1 as <-. apply filter_ext. intro a. now rewrite andb_true_r. }
    apply (map_m_spec _ _ _ performer_view _ _ performer_entry_spec) in Hx2.
    subst x1 x2.
    exists x, hr. eexists. split; [assumption|]. split; [assumption|].
    split; [reflexivity|]. split; [reflexivity|].
    simpl. now rewrite length_map.
  - intros hr Hload Hwf.
    destruct (get_top_performers_well_formed fs hr department Hload Hwf)
      as (r & _ & Hr & _).
    eauto.
Qed.

Lemma C5_top_performers_witness :
  load_data (hr_files [ada; grace]) "hr.json" = Ok (VList [ada; grace]) /\
  forallb well_formed_employee [ada; grace] = true /\
  exists r,
    get_top_performers (hr_files [ada; grace]) (VStr "Engineering") = Ok r /\
    py_getitem r "top_performers" = Ok (VList [ada]) /\
    py_getitem r "count" = Ok (VInt 1).
Proof.
  assert (Hload : load_data (hr_files [ada; grace]) "hr.json" = Ok (VList [ada; grace]))
    by reflexivity.
  assert (Hwf : forallb well_formed_employee [ada; grace] = true) by reflexivity.
  split; [exact Hload|]. split; [exact Hwf|].
  destruct (C5_top_performers (hr_files [ada; grace]) (VStr "Engineering"))
    as [Hshape Hreturns].
  destruct (Hreturns [ada; grace] Hload Hwf) as [r Hr].
  destruct (Hshape r Hr) as (hr_data & hr & l & Hd & Hit & Hl & Htop & Hcount).
  exists r. split; [exact Hr|].
  rewrite Hload in Hd. injection Hd as <-. simpl in Hit. injection Hit as <-.
  subst l. split; [exact Htop | exact Hcount].
Defined.

(** C5 as worded fails in two ways: an empty-string department is
    given yet not applied as a filter, and a record with further
    members is reported without them. *)
Lemma C5_selection_counterexample :
  ~ top_performers_as_specified (hr_files [ada]) (VStr EmptyString) /\
  ~ top_performers_as_specified (hr_files [ada_with_id]) (VStr "Engineering").
Proof.
  split; intros (hr & r & Hl & Hg & Ht & Hc);
    vm_compute in Hl; injection Hl as <-;
    vm_compute in Hg; injection Hg as <-;
    vm_compute in Ht; vm_compute in Hc; discriminate.
Qed.

(** ** Business overview *)





Example business_overview_departments :
  exists r, get_business_overview company_files = Ok r /\
    py_getitem r "departments"
      = Ok (obj [("Engineering", VInt 1); ("Sales", VInt 1);
                 ("Marketing", VInt 0); ("Support", VInt 0)]).
Proof. eexists. split; vm_compute; reflexivity. Qed.


(** ** Executors on missing, empty and malformed data *)




Example malformed_record_becomes_error_result :
  handle_tool_call sales_without_status (VStr "get_revenue_summary") (VDict [])
  = Ok (obj [("error", VStr "'status'")]).
Proof. vm_compute. reflexivity. Qed.

(** ** The two transports *)

Lemma py_get_dict (d : dict) (k : string) (default : value) :
  py_get (VDict d) k default
  = Ok (match dict_get d (KStr k) with Some x => x | None => default end).
Proof.
  simpl. destruct (dict_get d (KStr k)); reflexivity.
Qed.





Lemma decode_call_message (request_id : jdoc) (name : string)
      (arguments : list (string * jdoc)) :
  json_decode (call_message request_id name arguments)
  = obj [("type", VStr "tools/call");
         ("request_id", json_decode request_id);
         ("params", obj [("name", VStr name);
                         ("arguments", VDict (arguments_of arguments))])].
Proof. reflexivity. Qed.

(** Both routes hand the same name and arguments to
    [handle_tool_call] and pass its result on. *)
Lemma both_routes_dispatch_alike
      (fs : files) (name : string) (arguments : list (string * jdoc))
      (request_id : jdoc) :
  exists result,
    handle_tool_call fs (VStr name) (VDict (arguments_of arguments)) = Ok result /\
    call_tool fs name (arguments_of arguments) = Ok (obj [("result", result)]) /\
    loop_body fs (frame (call_message request_id name arguments))
    = Ok (Some {| resp_type := "tools/call";
                  resp_request_id := json_decode request_id;
                  resp_result := Content (json_dumps result) |}).
Proof.
  destruct (handle_tool_call_total fs (VStr name) (VDict (arguments_of arguments)))
    as [result Hres].
  exists result.
  split; [exact Hres|]. split.
  { unfold call_tool. now rewrite Hres. }
  unfold loop_body, frame, receive_text, send_text. cbn [received send_fault].
  rewrite bind_Ok. cbn [json_loads]. rewrite bind_Ok, decode_call_message.
  unfold obj at 1. cbn [map fst snd]. rewrite !py_get_dict.
  cbn - [handle_tool_call json_dumps arguments_of].
  rewrite Hres. reflexivity.
Qed.


(** ** The session loop *)




Lemma app_assoc_one (A : Type) (l m : list A) (x : A) :
  ((l ++ [x]) ++ m = l ++ x :: m)%list.
Proof. now rewrite <- app_assoc. Qed.











(** ** JSON text carries native objects unchanged *)

Lemma dict_set_fresh (d : dict) (k : key) (v : value) :
  (forall k', In k' (map fst d) -> key_eqb k' k = false) ->
  dict_set d k v = (d ++ [(k, v)])%list.
Proof.
  induction d as [|[k0 v0] d IH]; simpl; intro H; [reflexivity|].
  rewrite (H k0 (or_introl eq_refl)), IH; auto.
Qed.

Lemma dict_of_pairs_distinct (l : list (key * value)) (acc : dict) :
  keys_distinct (map fst (acc ++ l)%list) = true ->
  fold_left (fun d kv => dict_set d (fst kv) (snd kv)) l acc = (acc ++ l)%list.
Proof.
  revert acc. induction l as [|[k v] l IH]; simpl; intros acc H.
  - now rewrite app_nil_r.
  - rewrite dict_set_fresh.
    + rewrite IH; rewrite <- app_assoc; [reflexivity | exact H].
    + clear IH. induction acc as [|[k0 v0] acc IHacc]; simpl in *; [tauto|].
      apply andb_true_iff in H. destruct H as [Hk0 Hrest].
      intros k' [<-|Hin]; [|auto].
      apply negb_true_iff in Hk0.
      destruct (key_eqb k0 k) eqn:E; [|reflexivity].
      rewrite <- Hk0. symmetry. apply existsb_exists.
      exists k. split; [|exact E]. rewrite map_app. apply in_or_app.
      right. left. reflexivity.
Qed.

Lemma json_roundtrip_native :
  forall v, json_native v = true -> json_decode (json_encode v) = v.
Proof.
  fix IH 1. intros [ | | | | | l | d] H; simpl; try reflexivity.
  - f_equal. simpl in H. rewrite map_map.
    induction l as [|x l IHl]; simpl in *; [reflexivity|].
    apply andb_true_iff in H. destruct H as [Hx Hl].
    f_equal; [apply IH; exact Hx | apply IHl; exact Hl].
  - f_equal. simpl in H. apply andb_true_iff in H. destruct H as [Hkeys Hall].
    rewrite map_map.
    assert (Hmap : map (fun kv : key * value =>
                          let '(k, x) := let '(k, x) := kv in
                                         (key_text k, json_encode x) in
                          (KStr k, json_decode x)) d = d).
    { clear Hkeys. induction d as [|[k x] d IHd]; simpl in *; [reflexivity|].
      apply andb_true_iff in Hall. destruct Hall as [Hkx Hd].
      apply andb_true_iff in Hkx. destruct Hkx as [Hk Hx].
      destruct k; try discriminate. simpl.
      f_equal; [f_equal; apply IH; exact Hx | apply IHd; exact Hd]. }
    rewrite Hmap. unfold dict_of_pairs.
    apply (dict_of_pairs_distinct d []). exact Hkeys.
Qed.

(** When the result is a native object, the embedded text decodes to
    the very object [call_tool] puts under [result]. *)
Corollary embedded_text_decodes_to_native_result (v : value) :
  json_native v = true -> json_loads (json_dumps v) = Ok v.
Proof.
  intro H. simpl. now rewrite json_roundtrip_native.
Qed.

(** A status that is not a string becomes a dictionary key that is not
    a string; [json.dumps] writes it as text on both transports
    alike. *)
Example numeric_status_key_is_written_as_text :
  exists result,
    get_open_tickets numeric_status_files = Ok result /\
    py_getitem result "tickets_by_status" = Ok (VDict [(KInt 1, VInt 1)]) /\
    (decoded <- json_loads (json_dumps result) ;;
     py_getitem decoded "tickets_by_status") = Ok (VDict [(KStr "1", VInt 1)]).
Proof. eexists. repeat split; vm_compute; reflexivity. Qed.

(** ** Results are native objects *)

Lemma json_native_dict (d : dict) : json_native (VDict d) = native_dict d.
Proof. reflexivity. Qed.

Lemma native_dict_get (d : dict) (k : key) (v : value) :
  entries_native d = true -> dict_get d k = Some v -> json_native v = true.
Proof.
  induction d as [|[k0 v0] d IH]; simpl; intros H Hget; [discriminate|].
  apply andb_true_iff in H. destruct H as [H0 Hd].
  apply andb_true_iff in H0. destruct H0 as [_ Hv0].
  destruct (key_eqb k0 k); [congruence | auto].
Qed.

Lemma native_field (f : string) (x v : value) :
  json_native x = true -> py_getitem x f = Ok v -> json_native v = true.
Proof.
  intros Hx Hget. apply py_getitem_field in Hget.
  destruct x; try discriminate. simpl in Hget.
  rewrite json_native_dict in Hx. apply andb_true_iff in Hx.
  eapply native_dict_get; [apply Hx | exact Hget].
Qed.

Lemma native_key (k : key) : json_native (value_of_key k) = true.
Proof. destruct k; reflexivity. Qed.

Lemma native_items (v : value) (items : list value) :
  json_native v = true -> py_iter v = Ok items -> forallb json_native items = true.
Proof.
  destruct v; simpl; try discriminate; intros H Hit; injection Hit as <-.
  - induction s; simpl; auto.
  - exact H.
  - apply forallb_map. intros. apply native_key.
Qed.

Lemma filter_m_keeps (A : Type) (p : A -> res bool) (q : A -> bool) (l l' : list A) :
  filter_m p l = Ok l' -> forallb q l = true -> forallb q l' = true.
Proof.
  revert l'. induction l as [|x l IH]; simpl; intros l' H Hq.
  - injection H as <-. reflexivity.
  - inv_binds H. injection H as <-.
    apply andb_true_iff in Hq. destruct Hq as [Hx' Hl].
    specialize (IH _ Hx0 Hl). destruct x0; simpl; [rewrite Hx'|]; auto.
Qed.

Lemma filter_m_incl (A : Type) (p : A -> res bool) (l l' : list A) :
  filter_m p l = Ok l' -> forall x, In x l' -> In x l.
Proof.
  revert l'. induction l as [|a l IH]; simpl; intros l' H x Hin.
  - injection H as <-. exact Hin.
  - inv_binds H. injection H as <-.
    destruct x0; [destruct Hin as [<-|Hin]|]; eauto.
Qed.

Lemma comprehension_native (src : value) (p : value -> res bool) (l : list value) :
  json_native src = true -> comprehension src p = Ok l ->
  forallb json_native l = true.
Proof.
  unfold comprehension. intros Hsrc H. inv_bind H.
  eapply filter_m_keeps; [exact H|]. eapply native_items; eauto.
Qed.

Lemma load_data_native (fs : files) (file_name : string) (v : value) :
  native_files fs -> load_data fs file_name = Ok v -> json_native v = true.
Proof.
  unfold load_data. intros Hfs H.
  destruct (fs ("data/" ++ file_name)) as [w|e] eqn:E; simpl in H; injection H as <-.
  - eapply Hfs; eauto.
  - reflexivity.
Qed.

Lemma load_data_labels (fs : files) (file_name : string) (v : value)
      (items : list value) (x : value) :
  labels_are_strings fs -> load_data fs file_name = Ok v ->
  py_iter v = Ok items -> In x items ->
  label_is_str "status" x = true /\ label_is_str "priority" x = true.
Proof.
  unfold load_data. intros Hfs H Hit Hin.
  destruct (fs ("data/" ++ file_name)) as [w|e] eqn:E; simpl in H; injection H as <-.
  - eapply Hfs; eauto.
  - simpl in Hit. injection Hit as <-. destruct Hin.
Qed.

Lemma atom_native (v : value) : atom v = true -> json_native v = true.
Proof. destruct v; simpl; auto; discriminate. Qed.

Lemma py_add_atom (a b c : value) : py_add a b = Ok c -> atom c = true.
Proof.
  unfold py_add. destruct (int_val a), (int_val b), (num a), (num b);
    intro H; try discriminate; injection H as <-; reflexivity.
Qed.

Lemma sum_gen_atom (cond : value -> res bool) (f : value -> res value)
      (l : list value) (acc total : value) :
  atom acc = true -> sum_gen cond f l acc = Ok total -> atom total = true.
Proof.
  revert acc. induction l as [|x l IH]; simpl; intros acc Hacc H.
  - congruence.
  - inv_bind H. destruct x0; [|eauto].
    inv_binds H. apply py_add_atom in Hx1. eauto.
Qed.

Lemma py_sum_atom (src : value) (cond : value -> res bool) (f : value -> res value)
      (total : value) :
  py_sum src cond f = Ok total -> atom total = true.
Proof.
  unfold py_sum. intro H. inv_bind H. eapply sum_gen_atom; [|exact H]. reflexivity.
Qed.

Lemma py_truediv_atom (a b c : value) : py_truediv a b = Ok c -> atom c = true.
Proof.
  unfold py_truediv. destruct (num a), (num b); try discriminate.
  destruct (Qeq_bool q0 0); intro H; [discriminate | injection H as <-; reflexivity].
Qed.

Lemma keys_of_dict_set (d : dict) (k : key) (v : value) :
  map fst (dict_set d k v) = map fst d \/
  (map fst (dict_set d k v) = (map fst d ++ [k])%list /\
   forall k', In k' (map fst d) -> key_eqb k' k = false).
Proof.
  induction d as [|[k0 v0] d IH]; simpl.
  - right. split; [reflexivity | tauto].
  - destruct (key_eqb k0 k) eqn:E; simpl; [left; reflexivity|].
    destruct IH as [-> | [-> Hfresh]]; [left; reflexivity|].
    right. split; [reflexivity|]. intros k' [<-|Hin]; auto.
Qed.

Lemma existsb_snoc (A : Type) (p : A -> bool) (l : list A) (x : A) :
  existsb p (l ++ [x])%list = existsb p l || p x.
Proof.
  rewrite existsb_app. simpl. now rewrite orb_false_r.
Qed.

Lemma keys_distinct_snoc (l : list key) (k : key) :
  keys_distinct l = true -> (forall k', In k' l -> key_eqb k' k = false) ->
  keys_distinct (l ++ [k])%list = true.
Proof.
  induction l as [|k0 l IH]; simpl; intros H Hfresh; [reflexivity|].
  apply andb_true_iff in H. destruct H as [H0 Hl].
  rewrite existsb_snoc, (Hfresh k0 (or_introl eq_refl)), orb_false_r, H0.
  simpl. apply IH; auto.
Qed.

Lemma dict_set_native (d : dict) (k : key) (v : value) :
  native_dict d = true -> str_key k = true -> json_native v = true ->
  native_dict (dict_set d k v) = true.
Proof.
  unfold native_dict. intros H Hk Hv.
  apply andb_true_iff in H. destruct H as [Hkeys Hent].
  apply andb_true_iff. split.
  - destruct (keys_of_dict_set d k v) as [-> | [-> Hfresh]];
      [exact Hkeys | now apply keys_distinct_snoc].
  - clear Hkeys. induction d as [|[k0 v0] d IH]; simpl in *.
    + now rewrite Hk, Hv.
    + apply andb_true_iff in Hent. destruct Hent as [H0 Hd].
      apply andb_true_iff in H0. destruct H0 as [Hk0 Hv0].
      destruct (key_eqb k0 k); simpl.
      * now rewrite Hk0, Hv, Hd.
      * now rewrite Hk0, Hv0, IH.
Qed.

Lemma tally_native (d d' : dict) (v : value) :
  native_dict d = true -> is_str v = true -> tally d v = Ok d' ->
  native_dict d' = true.
Proof.
  unfold tally. intros Hd Hv H. destruct v; try discriminate.
  simpl in H. inv_bind H. injection H as <-.
  apply dict_set_native; auto. apply atom_native. eapply py_add_atom; eauto.
Qed.

Lemma label_of_field (f : string) (x v : value) :
  label_is_str f x = true -> py_getitem x f = Ok v -> is_str v = true.
Proof.
  unfold label_is_str. intros H Hget. apply py_getitem_field in Hget.
  now rewrite Hget in H.
Qed.

Lemma tally_tickets_native (tickets : list value) :
  (forall x, In x tickets ->
     label_is_str "status" x = true /\ label_is_str "priority" x = true) ->
  forall s p s' p',
    native_dict s = true -> native_dict p = true ->
    tally_tickets tickets s p = Ok (s', p') ->
    native_dict s' = true /\ native_dict p' = true.
Proof.
  induction tickets as [|t tickets IH]; simpl; intros Hlab s p s' p' Hs Hp H.
  - injection H as <- <-. auto.
  - inv_binds H.
    destruct (Hlab t (or_introl eq_refl)) as [Hst Hpr].
    eapply IH; [intros; apply Hlab; now right | | | exact H].
    + eapply tally_native; [exact Hs | | exact Hx0].
      eapply label_of_field; [exact Hst | exact Hx].
    + eapply tally_native; [exact Hp | | exact Hx2].
      eapply label_of_field; [exact Hpr | exact Hx1].
Qed.

Lemma tally_sales_native (sales : list value) :
  (forall x, In x sales -> label_is_str "status" x = true) ->
  forall s s', native_dict s = true -> tally_sales sales s = Ok s' ->
               native_dict s' = true.
Proof.
  induction sales as [|t sales IH]; simpl; intros Hlab s s' Hs H.
  - now injection H as <-.
  - inv_binds H. eapply IH; [intros; apply Hlab; now right | | exact H].
    eapply tally_native; [exact Hs | | exact Hx0].
    eapply label_of_field; [|exact Hx]. apply Hlab. now left.
Qed.

(** An object literal with different member names and native members. *)
Lemma obj_native (l : list (string * value)) :
  keys_distinct (map (fun kv => KStr (fst kv)) l) = true ->
  forallb json_native (map snd l) = true ->
  json_native (obj l) = true.
Proof.
  intros Hk Hv. unfold obj. rewrite json_native_dict. unfold native_dict.
  rewrite map_map. simpl. rewrite Hk. simpl.
  induction l as [|[k v] l IH]; simpl in *; [reflexivity|].
  apply andb_true_iff in Hk, Hv. destruct Hk as [_ Hk]. destruct Hv as [Hv Hl].
  rewrite Hv. simpl. auto.
Qed.

(** Split [forallb json_native] over the members of an object literal. *)
Ltac native_members :=
  cbn [map fst snd forallb];
  repeat first [assumption | reflexivity | apply andb_true_intro; split].

Lemma map_m_native (q : value -> bool) (f : value -> res value) (l l' : list value) :
  (forall x y, q x = true -> f x = Ok y -> json_native y = true) ->
  forallb q l = true -> map_m f l = Ok l' -> forallb json_native l' = true.
Proof.
  intro Hf. revert l'. induction l as [|x l IH]; simpl; intros l' Hq H.
  - now injection H as <-.
  - inv_binds H. injection H as <-.
    apply andb_true_iff in Hq. destruct Hq as [Hqx Hql].
    simpl. rewrite (Hf _ _ Hqx Hx), (IH _ Hql Hx0). reflexivity.
Qed.

Lemma performer_entry_native (p entry : value) :
  json_native p = true -> performer_entry p = Ok entry -> json_native entry = true.
Proof.
  unfold performer_entry. intros Hp H. inv_binds H. injection H as <-.
  pose proof (native_field _ _ _ Hp Hx). pose proof (native_field _ _ _ Hp Hx0).
  pose proof (native_field _ _ _ Hp Hx1). pose proof (native_field _ _ _ Hp Hx2).
  apply obj_native; [reflexivity | native_members].
Qed.

Lemma get_revenue_summary_native (fs : files) (r : value) :
  get_revenue_summary fs = Ok r -> json_native r = true.
Proof.
  unfold get_revenue_summary. intro H. inv_binds H. injection H as <-.
  apply py_sum_atom, atom_native in Hx3, Hx4.
  assert (Hrate : atom x5 = true).
  { destruct (py_truthy x).
    - inv_bind Hx5. eapply py_truediv_atom; eauto.
    - injection Hx5 as <-. reflexivity. }
  apply atom_native in Hrate.
  apply obj_native; [reflexivity | native_members].
Qed.

Lemma get_top_performers_native (fs : files) (department r : value) :
  native_files fs -> get_top_performers fs department = Ok r ->
  json_native r = true.
Proof.
  unfold get_top_performers. intros Hfs H. inv_binds H. injection H as <-.
  apply (load_data_native _ _ _ Hfs) in Hx.
  pose proof (comprehension_native _ _ _ Hx Hx0) as Hperf.
  assert (Hsel : forallb json_native x1 = true).
  { destruct (py_truthy department).
    - eapply comprehension_native; [|exact Hx1]. exact Hperf.
    - now injection Hx1 as <-. }
  pose proof (map_m_native json_native performer_entry x1 x2
                performer_entry_native Hsel Hx2) as Hlist.
  apply obj_native; [reflexivity | native_members].
Qed.

Lemma comprehension_incl (src : value) (p : value -> res bool)
      (items l : list value) :
  py_iter src = Ok items -> comprehension src p = Ok l ->
  forall x, In x l -> In x items.
Proof.
  unfold comprehension. intros Hit H. rewrite Hit, bind_Ok in H.
  eapply filter_m_incl; eauto.
Qed.

Lemma comprehension_iterates (src : value) (p : value -> res bool) (l : list value) :
  comprehension src p = Ok l -> exists items, py_iter src = Ok items.
Proof.
  unfold comprehension. destruct (py_iter src); [eauto | discriminate].
Qed.

Lemma get_open_tickets_native (fs : files) (r : value) :
  native_files fs -> labels_are_strings fs ->
  get_open_tickets fs = Ok r -> json_native r = true.
Proof.
  unfold get_open_tickets. intros Hfs Hlab H. inv_binds H. injection H as <-.
  destruct (comprehension_iterates _ _ _ Hx0) as [items Hit].
  assert (Hopen : forall t, In t x0 ->
            label_is_str "status" t = true /\ label_is_str "priority" t = true).
  { intros t Hin. eapply load_data_labels; eauto.
    eapply comprehension_incl; eauto. }
  destruct x1 as [by_status by_priority].
  destruct (tally_tickets_native x0 Hopen [] [] by_status by_priority
              eq_refl eq_refl Hx1) as [Hs Hp].
  rewrite <- json_native_dict in Hs, Hp.
  apply (load_data_native _ _ _ Hfs) in Hx.
  pose proof (comprehension_native _ _ _ Hx Hx0) as Hlist.
  apply obj_native; [reflexivity | native_members].
Qed.

Lemma analyze_sales_performance_native (fs : files) (region r : value) :
  native_files fs -> labels_are_strings fs -> json_native region = true ->
  analyze_sales_performance fs region = Ok r -> json_native r = true.
Proof.
  unfold analyze_sales_performance. intros Hfs Hlab Hreg H.
  inv_binds H. injection H as <-.
  assert (Hitems : forall s, In s x1 -> label_is_str "status" s = true).
  { destruct (py_truthy region).
    - inv_bind Hx0. injection Hx0 as <-. simpl in Hx1. injection Hx1 as <-.
      destruct (comprehension_iterates _ _ _ Hx9) as [items Hit].
      intros s Hin. eapply load_data_labels; eauto.
      eapply comprehension_incl; eauto.
    - injection Hx0 as <-. intros s Hin. eapply load_data_labels; eauto. }
  pose proof (tally_sales_native x1 Hitems [] x2 eq_refl Hx2) as Hs.
  rewrite <- json_native_dict in Hs.
  apply py_sum_atom, atom_native in Hx3, Hx4.
  assert (Havg : atom x5 = true).
  { destruct (py_truthy x0).
    - inv_bind Hx5. eapply py_truediv_atom; eauto.
    - injection Hx5 as <-. reflexivity. }
  apply atom_native in Havg.
  apply obj_native; [reflexivity|].
  destruct (py_truthy region); native_members.
Qed.

Lemma headcount_atom (hr_data : value) (name : string) (n : value) :
  headcount hr_data name = Ok n -> json_native n = true.
Proof.
  unfold headcount. intro H. inv_bind H. now injection H as <-.
Qed.

Lemma get_business_overview_native (fs : files) (r : value) :
  get_business_overview fs = Ok r -> json_native r = true.
Proof.
  unfold get_business_overview. intro H. inv_binds H. injection H as <-.
  apply py_sum_atom, atom_native in Hx2.
  apply headcount_atom in Hx6, Hx7, Hx8, Hx9.
  apply obj_native; [reflexivity | native_members].
Qed.

Lemma py_get_native (m : value) (k : string) (default v : value) :
  json_native m = true -> json_native default = true ->
  py_get m k default = Ok v -> json_native v = true.
Proof.
  intros Hm Hd H. destruct m; try discriminate. rewrite py_get_dict in H.
  injection H as <-. destruct (dict_get d (KStr k)) eqn:E; [|exact Hd].
  rewrite json_native_dict in Hm. apply andb_true_iff in Hm.
  eapply native_dict_get; [apply Hm | exact E].
Qed.

(** On native data with string labels and native arguments, every
    result of [handle_tool_call] is a native object. *)
Lemma handle_tool_call_native (fs : files) (tool_name arguments result : value) :
  native_files fs -> labels_are_strings fs -> json_native arguments = true ->
  handle_tool_call fs tool_name arguments = Ok result ->
  json_native result = true.
Proof.
  intros Hfs Hlab Hargs. unfold handle_tool_call.
  destruct (run_tool fs tool_name arguments) as [r|e] eqn:Hrun; simpl;
    intro H; injection H as <-; [|reflexivity].
  unfold run_tool in Hrun.
  repeat match type of Hrun with
         | (if ?c then _ else _) = _ => destruct c
         end.
  - eapply get_revenue_summary_native; eauto.
  - inv_bind Hrun. eapply get_top_performers_native; eauto.
  - eapply get_open_tickets_native; eauto.
  - inv_bind Hrun.
    eapply analyze_sales_performance_native; [exact Hfs | exact Hlab | | exact Hrun].
    exact (py_get_native arguments "region" VNone x Hargs eq_refl Hx).
  - eapply get_business_overview_native; eauto.
  - now injection Hrun as <-.
Qed.

Lemma dict_of_pairs_native (l : list (key * value)) (acc : dict) :
  native_dict acc = true ->
  forallb (fun kv => str_key (fst kv) && json_native (snd kv)) l = true ->
  native_dict (fold_left (fun d kv => dict_set d (fst kv) (snd kv)) l acc) = true.
Proof.
  revert acc. induction l as [|[k v] l IH]; simpl; intros acc Hacc H; [exact Hacc|].
  apply andb_true_iff in H. destruct H as [Hkv Hl].
  apply andb_true_iff in Hkv. destruct Hkv as [Hk Hv].
  apply IH; [|exact Hl]. now apply dict_set_native.
Qed.

(** Whatever [json.loads] returns is a native object. *)
Lemma json_decode_native : forall j, json_native (json_decode j) = true.
Proof.
  fix IH 1. intros [ | | | | | l | m]; simpl; try reflexivity.
  - induction l as [|x l IHl]; simpl; [reflexivity|].
    rewrite (IH x). exact IHl.
  - change (native_dict
              (dict_of_pairs
                 (map (fun kx : string * jdoc =>
                         let '(k, x) := kx in (KStr k, json_decode x)) m)) = true).
    apply dict_of_pairs_native; [reflexivity|].
    induction m as [|[k x] m IHm]; simpl; [reflexivity|].
    rewrite (IH x). exact IHm.
Qed.

(** On native data with string labels, the text embedded in the
    WebSocket response decodes to the very object that [call_tool]
    returns under [result]. *)
Lemma embedded_text_is_the_http_result
      (fs : files) (name : string) (arguments : list (string * jdoc))
      (request_id : jdoc) :
  native_files fs -> labels_are_strings fs ->
  exists result,
    call_tool fs name (arguments_of arguments) = Ok (obj [("result", result)]) /\
    loop_body fs (frame (call_message request_id name arguments))
    = Ok (Some {| resp_type := "tools/call";
                  resp_request_id := json_decode request_id;
                  resp_result := Content (json_dumps result) |}) /\
    json_loads (json_dumps result) = Ok result.
Proof.
  intros Hfs Hlab.
  destruct (both_routes_dispatch_alike fs name arguments request_id)
    as (result & Hres & Hhttp & Hws).
  exists result. split; [exact Hhttp|]. split; [exact Hws|].
  apply embedded_text_decodes_to_native_result.
  eapply handle_tool_call_native; [exact Hfs | exact Hlab | | exact Hres].
  exact (json_decode_native (JObject arguments)).
Qed.

(** ** The loop in general *)

(** While no turn raises, the outbox grows by the answers to the turns,
    in the order of the turns. *)
Lemma serve_answers_in_order (fs : files) (ws : conn) (clients : list conn)
      (turns : list turn) (sent : list ws_response) :
  Forall (fun t => exists o, loop_body fs t = Ok o) turns ->
  serve fs ws clients turns sent
  = {| state := Open; connected_clients := clients;
       outbox := (sent ++ flat_map (answered fs) turns)%list |}.
Proof.
  intro H. revert sent. induction H as [|t turns [o Ho] _ IH]; intro sent; simpl.
  - now rewrite app_nil_r.
  - unfold answered at 1. rewrite Ho. destruct o as [r|]; rewrite IH.
    + now rewrite app_assoc_one.
    + reflexivity.
Qed.

(** The first turn that raises ends the session: later turns are not
    looked at. *)
Lemma serve_stops_at_first_fault (fs : files) (ws : conn) (clients : list conn)
      (before : list turn) (t : turn) (later : list turn)
      (sent : list ws_response) (e : exn) :
  Forall (fun t => exists o, loop_body fs t = Ok o) before ->
  loop_body fs t = Raise e ->
  serve fs ws clients (before ++ t :: later)%list sent
  = {| state := if is_disconnect e then Disconnected else Failed e;
       connected_clients := remove_first ws clients;
       outbox := (sent ++ flat_map (answered fs) before)%list |}.
Proof.
  intros H He. revert sent.
  induction H as [|t0 before [o Ho] _ IH]; intro sent; simpl.
  - now rewrite He, app_nil_r.
  - unfold answered at 1. rewrite Ho. destruct o as [r|]; rewrite IH.
    + now rewrite app_assoc_one.
    + reflexivity.
Qed.

(* ================================================================== *)
(** * Further properties of the server *)
(* ================================================================== *)

(** ** Dictionary keys *)

Lemma Qeq_bool_sym (x y : Q) : Qeq_bool x y = Qeq_bool y x.
Proof.
  destruct (Qeq_bool x y) eqn:E, (Qeq_bool y x) eqn:F; try reflexivity.
  - apply Qeq_bool_iff in E. symmetry in E. apply Qeq_bool_iff in E. congruence.
  - apply Qeq_bool_iff in F. symmetry in F. apply Qeq_bool_iff in F. congruence.
Qed.

Lemma Qeq_bool_trans' (x y z : Q) :
  Qeq_bool x y = true -> Qeq_bool y z = true -> Qeq_bool x z = true.
Proof.
  intros H1 H2. apply Qeq_bool_iff in H1, H2. apply Qeq_bool_iff.
  now rewrite H1.
Qed.

Lemma key_eqb_sym (a b : key) : key_eqb a b = key_eqb b a.
Proof.
  unfold key_eqb.
  destruct (key_num a) eqn:Ea, (key_num b) eqn:Eb; try reflexivity.
  - apply Qeq_bool_sym.
  - destruct a, b; try discriminate; try reflexivity. apply String.eqb_sym.
Qed.

Lemma key_eqb_trans (a b c : key) :
  key_eqb a b = true -> key_eqb b c = true -> key_eqb a c = true.
Proof.
  unfold key_eqb.
  destruct (key_num a) eqn:Ea, (key_num b) eqn:Eb, (key_num c) eqn:Ec;
    try discriminate.
  - apply Qeq_bool_trans'.
  - destruct a, b, c; try discriminate; try reflexivity.
    intros H1 H2. apply String.eqb_eq in H1, H2. subst. apply String.eqb_refl.
Qed.

Lemma key_eqb_false_l (a b c : key) :
  key_eqb a b = true -> key_eqb b c = false -> key_eqb a c = false.
Proof.
  intros H1 H2. destruct (key_eqb a c) eqn:E; [|reflexivity].
  rewrite key_eqb_sym in H1. rewrite <- H2. symmetry.
  eapply key_eqb_trans; eauto.
Qed.

(** Lookup after assignment: [d[k0] = v] is seen under every key equal
    to [k0] and nowhere else. *)
Lemma dict_get_set (d : dict) (k0 k : key) (v : value) :
  dict_get (dict_set d k0 v) k
  = if key_eqb k0 k then Some v else dict_get d k.
Proof.
  induction d as [|[k' v'] d IH]; simpl.
  - reflexivity.
  - destruct (key_eqb k' k0) eqn:E0; simpl.
    + destruct (key_eqb k0 k) eqn:E.
      * now rewrite (key_eqb_trans _ _ _ E0 E).
      * now rewrite (key_eqb_false_l _ _ _ E0 E).
    + rewrite IH. destruct (key_eqb k' k) eqn:E'; [|reflexivity].
      destruct (key_eqb k0 k) eqn:E; [|reflexivity].
      rewrite (key_eqb_sym k0 k) in E.
      rewrite (key_eqb_trans _ _ _ E' E) in E0. discriminate.
Qed.

Lemma dict_get_eqb (d : dict) (k0 k : key) :
  key_eqb k0 k = true -> dict_get d k0 = dict_get d k.
Proof.
  intro H. induction d as [|[k' v'] d IH]; simpl; [reflexivity|].
  destruct (key_eqb k' k0) eqn:E0.
  - now rewrite (key_eqb_trans _ _ _ E0 H).
  - rewrite IH. destruct (key_eqb k' k) eqn:E; [|reflexivity].
    rewrite key_eqb_sym in H. rewrite (key_eqb_trans _ _ _ E H) in E0. discriminate.
Qed.

(** ** Frequency tables *)

Lemma int_table_get (d : dict) (k : key) (c : value) :
  int_table d = true -> dict_get d k = Some c ->
  exists n, c = VInt n /\ (1 <= n)%Z.
Proof.
  induction d as [|[k' v'] d IH]; simpl; intros H Hget; [discriminate|].
  apply andb_true_iff in H. destruct H as [Hv Hd].
  destruct (key_eqb k' k).
  - injection Hget as <-. destruct v'; try discriminate.
    exists z. split; [reflexivity|]. now apply Z.leb_le.
  - auto.
Qed.

Lemma count_of_absent (d : dict) (k : key) :
  int_table d = true -> count_of d k = 0%Z -> dict_get d k = None.
Proof.
  intros H Hc. unfold count_of in Hc.
  destruct (dict_get d k) as [c|] eqn:E; [|reflexivity].
  destruct (int_table_get d k c H E) as (n & -> & Hn). lia.
Qed.

Lemma count_of_nonneg (d : dict) (k : key) :
  int_table d = true -> (0 <= count_of d k)%Z.
Proof.
  intro H. unfold count_of. destruct (dict_get d k) as [c|] eqn:E; [|lia].
  destruct (int_table_get d k c H E) as (n & -> & Hn). lia.
Qed.

Lemma int_table_set (d : dict) (k : key) (n : Z) :
  int_table d = true -> (1 <= n)%Z -> int_table (dict_set d k (VInt n)) = true.
Proof.
  intros H Hn. induction d as [|[k' v'] d IH]; simpl in *.
  - apply Z.leb_le in Hn. now rewrite Hn.
  - apply andb_true_iff in H. destruct H as [Hv Hd].
    destruct (key_eqb k' k); simpl.
    + apply Z.leb_le in Hn. now rewrite Hn, Hd.
    + now rewrite Hv, IH.
Qed.

Lemma table_total_set (d : dict) (k : key) :
  int_table d = true ->
  table_total (dict_set d k (VInt (count_of d k + 1))) = (table_total d + 1)%Z.
Proof.
  intro H. induction d as [|[k' v'] d IH].
  - reflexivity.
  - simpl in H. apply andb_true_iff in H. destruct H as [Hv Hd].
    unfold count_of. simpl. destruct (key_eqb k' k) eqn:E; simpl.
    + destruct v'; try discriminate. lia.
    + fold (count_of d k). rewrite (IH Hd). destruct v'; try discriminate. lia.
Qed.

(** One step of counting: [d[v] = d.get(v, 0) + 1]. *)
Lemma tally_step (d d' : dict) (v : value) :
  int_table d = true -> tally d v = Ok d' ->
  exists k0, to_key v = Ok k0 /\
    int_table d' = true /\
    table_total d' = (table_total d + 1)%Z /\
    forall k, count_of d' k
              = (count_of d k + if key_eqb k0 k then 1 else 0)%Z.
Proof.
  unfold tally. intros Hd H. inv_binds H. injection H as <-.
  rename x into k0. exists k0. split; [assumption|].
  assert (Hn : x0 = VInt (count_of d k0 + 1)).
  { unfold count_of. destruct (dict_get d k0) as [c|] eqn:E.
    - destruct (int_table_get d k0 c Hd E) as (n & -> & _).
      unfold py_add in Hx0. simpl in *. congruence.
    - unfold py_add in Hx0. simpl in *. congruence. }
  subst x0. pose proof (count_of_nonneg d k0 Hd) as Hpos.
  split; [apply int_table_set; [assumption | lia]|].
  split; [now apply table_total_set|].
  intro k. unfold count_of at 1. rewrite dict_get_set.
  destruct (key_eqb k0 k) eqn:E.
  - unfold count_of. now rewrite (dict_get_eqb d k0 k E).
  - fold (count_of d k). lia.
Qed.

Lemma occurrences_cons (f : string) (k : key) (x : value) (l : list value) :
  occurrences f k (x :: l)
  = ((match label_key f x with
      | Some k' => if key_eqb k' k then 1 else 0
      | None => 0
      end) + occurrences f k l)%Z.
Proof.
  unfold occurrences. simpl.
  destruct (label_key f x) as [k'|]; [destruct (key_eqb k' k)|];
    simpl List.length; lia.
Qed.

Lemma label_key_of (f : string) (x v : value) (k : key) :
  py_getitem x f = Ok v -> to_key v = Ok k -> label_key f x = Some k.
Proof.
  intros Hget Hk. apply py_getitem_field in Hget. unfold label_key.
  now rewrite Hget, Hk.
Qed.

(** The loop of [get_open_tickets] counts every ticket once, under its
    status and under its priority. *)
Lemma tally_tickets_counts (tickets : list value) :
  forall s p s' p',
    int_table s = true -> int_table p = true ->
    tally_tickets tickets s p = Ok (s', p') ->
    int_table s' = true /\ int_table p' = true /\
    table_total s' = (table_total s + Z.of_nat (List.length tickets))%Z /\
    table_total p' = (table_total p + Z.of_nat (List.length tickets))%Z /\
    (forall k, count_of s' k = (count_of s k + occurrences "status" k tickets)%Z) /\
    (forall k, count_of p' k = (count_of p k + occurrences "priority" k tickets)%Z).
Proof.
  induction tickets as [|t tickets IH]; intros s p s' p' Hs Hp H.
  - simpl in H. injection H as <- <-. unfold occurrences. simpl.
    repeat split; auto; intros; lia.
  - simpl in H. inv_binds H.
    destruct (tally_step _ _ _ Hs Hx0) as (ks & Hks & Hs1 & Hts & Hcs).
    destruct (tally_step _ _ _ Hp Hx2) as (kp & Hkp & Hp1 & Htp & Hcp).
    destruct (IH _ _ _ _ Hs1 Hp1 H) as (Hs' & Hp' & Hts' & Htp' & Hcs' & Hcp').
    split; [assumption|]. split; [assumption|].
    split; [rewrite Hts', Hts; simpl List.length; lia|].
    split; [rewrite Htp', Htp; simpl List.length; lia|].
    split; intro k.
    + rewrite Hcs', Hcs, occurrences_cons, (label_key_of _ _ _ _ Hx Hks). lia.
    + rewrite Hcp', Hcp, occurrences_cons, (label_key_of _ _ _ _ Hx1 Hkp). lia.
Qed.

Lemma tally_sales_counts (sales : list value) :
  forall s s',
    int_table s = true -> tally_sales sales s = Ok s' ->
    int_table s' = true /\
    table_total s' = (table_total s + Z.of_nat (List.length sales))%Z /\
    (forall k, count_of s' k = (count_of s k + occurrences "status" k sales)%Z).
Proof.
  induction sales as [|t sales IH]; intros s s' Hs H.
  - simpl in H. injection H as <-. unfold occurrences. simpl.
    repeat split; auto; intros; lia.
  - simpl in H. inv_binds H.
    destruct (tally_step _ _ _ Hs Hx0) as (ks & Hks & Hs1 & Hts & Hcs).
    destruct (IH _ _ Hs1 H) as (Hs' & Hts' & Hcs').
    split; [assumption|].
    split; [rewrite Hts', Hts; simpl List.length; lia|].
    intro k.
    rewrite Hcs', Hcs, occurrences_cons, (label_key_of _ _ _ _ Hx Hks). lia.
Qed.

(** ** Open tickets *)

Lemma field_ne_spec (f : string) (v x : value) (b : bool) :
  field_ne f v x = Ok b -> negb (has_field_eq f v x) = b.
Proof.
  unfold field_ne, has_field_eq. intro H. inv_bind H.
  apply py_getitem_field in Hx. rewrite Hx. congruence.
Qed.

Lemma filter_m_field_ne (f : string) (v : value) (l l' : list value) :
  filter_m (field_ne f v) l = Ok l' ->
  l' = filter (fun x => negb (has_field_eq f v x)) l.
Proof.
  revert l'. induction l as [|x l IH]; simpl; intros l' H.
  - congruence.
  - inv_binds H. apply field_ne_spec in Hx. rewrite Hx.
    rewrite <- (IH _ Hx0). congruence.
Qed.

Lemma occurrences_nonneg (f : string) (k : key) (l : list value) :
  (0 <= occurrences f k l)%Z.
Proof. unfold occurrences. lia. Qed.

(** A key equal to a string key is that string key. *)
Lemma key_eqb_str (k : key) (s : string) :
  key_eqb k (KStr s) = true -> k = KStr s.
Proof.
  destruct k; unfold key_eqb; simpl; try discriminate.
  intro H. apply String.eqb_eq in H. now subst.
Qed.

Lemma label_key_str (f : string) (x : value) (s : string) :
  label_key f x = Some (KStr s) -> has_field_eq f (VStr s) x = true.
Proof.
  unfold label_key, has_field_eq. destruct (get_field f x) as [v|]; [|discriminate].
  destruct v; simpl; try discriminate. intro H. injection H as ->.
  apply String.eqb_refl.
Qed.

Lemma no_resolved_among_unresolved (tickets : list value) :
  occurrences "status" (KStr "Resolved") (unresolved tickets) = 0%Z.
Proof.
  unfold occurrences, unresolved. rewrite filter_twice.
  replace (filter _ tickets) with (@nil value); [reflexivity|].
  symmetry. induction tickets as [|t tickets IH]; simpl; [reflexivity|].
  rewrite <- IH.
  destruct (has_field_eq "status" (VStr "Resolved") t) eqn:E; simpl; [reflexivity|].
  destruct (label_key "status" t) as [k|] eqn:Ek; [|reflexivity].
  destruct (key_eqb k (KStr "Resolved")) eqn:Eq; [|reflexivity].
  apply key_eqb_str in Eq. subst k. apply label_key_str in Ek. congruence.
Qed.

(** Whenever [get_open_tickets] returns, [open_tickets] holds exactly
    the tickets whose status is not "Resolved", in dataset order;
    [open_tickets_count] is their number; [tickets_by_status] and
    [tickets_by_priority] hold, for every key, the number of open
    tickets with that status or priority; the counts of either table
    add up to [open_tickets_count]; and "Resolved" is not a key of
    [tickets_by_status]. *)
Theorem open_tickets_tables (fs : files) (r : value) :
  get_open_tickets fs = Ok r ->
  exists data tickets by_status by_priority,
    load_data fs "support.json" = Ok data /\ py_iter data = Ok tickets /\
    py_getitem r "open_tickets" = Ok (VList (unresolved tickets)) /\
    py_getitem r "open_tickets_count"
      = Ok (VLen (List.length (unresolved tickets))) /\
    py_getitem r "tickets_by_status" = Ok (VDict by_status) /\
    py_getitem r "tickets_by_priority" = Ok (VDict by_priority) /\
    (forall k, count_of by_status k = occurrences "status" k (unresolved tickets)) /\
    (forall k, count_of by_priority k
               = occurrences "priority" k (unresolved tickets)) /\
    table_total by_status = Z.of_nat (List.length (unresolved tickets)) /\
    table_total by_priority = Z.of_nat (List.length (unresolved tickets)) /\
    dict_get by_status (KStr "Resolved") = None.
Proof.
  unfold get_open_tickets. intro H. inv_binds H. injection H as <-.
  unfold comprehension in Hx0. inv_bind Hx0. rename x2 into tickets.
  apply filter_m_field_ne in Hx0. fold (unresolved tickets) in Hx0. subst x0.
  destruct x1 as [by_status by_priority].
  destruct (tally_tickets_counts (unresolved tickets) [] [] by_status by_priority
              eq_refl eq_refl Hx1)
    as (Hs & Hp & Hts & Htp & Hcs & Hcp).
  exists x, tickets, by_status, by_priority.
  split; [assumption|]. split; [assumption|].
  split; [reflexivity|]. split; [reflexivity|].
  split; [reflexivity|]. split; [reflexivity|].
  split; [intro k; rewrite Hcs; reflexivity|].
  split; [intro k; rewrite Hcp; reflexivity|].
  split; [rewrite Hts; reflexivity|]. split; [rewrite Htp; reflexivity|].
  apply count_of_absent; [assumption|].
  rewrite Hcs. simpl. apply no_resolved_among_unresolved.
Qed.

(** ** Sums as the code computes them *)

Lemma int_val_num (a : value) (x : Z) :
  int_val a = Some x -> num a = Some (inject_Z x).
Proof.
  destruct a; simpl; try discriminate; intro H; injection H as <-;
    [destruct b|]; reflexivity.
Qed.

Lemma py_add_num (a b c : value) :
  py_add a b = Ok c ->
  exists qa qb qc,
    num a = Some qa /\ num b = Some qb /\ num c = Some qc /\ (qc == qa + qb)%Q.
Proof.
  unfold py_add.
  assert (Hfloat :
    match num a, num b with
    | Some x, Some y => Ok (VFloat (Qred (x + y)))
    | _, _ => Raise (TypeError ("unsupported operand type(s) for +: '" ++ type_name a
                                ++ "' and '" ++ type_name b ++ "'"))
    end = Ok c ->
    exists qa qb qc,
      num a = Some qa /\ num b = Some qb /\ num c = Some qc /\ (qc == qa + qb)%Q).
  { destruct (num a) as [qa|], (num b) as [qb|]; intro H; try discriminate.
    injection H as <-. exists qa, qb, (Qred (qa + qb)).
    repeat (split; [reflexivity|]). apply Qred_correct. }
  destruct (int_val a) as [x|] eqn:Ea; [|exact Hfloat].
  destruct (int_val b) as [y|] eqn:Eb; [|exact Hfloat].
  intro H. injection H as <-.
  exists (inject_Z x), (inject_Z y), (inject_Z (x + y)).
  split; [now apply int_val_num|]. split; [now apply int_val_num|].
  split; [reflexivity|]. now rewrite inject_Z_plus.
Qed.

Lemma filter_all (A : Type) (l : list A) : filter (fun _ => true) l = l.
Proof. induction l; simpl; congruence. Qed.

(** A generator sum that does not raise is the sum of the projected
    numbers of the selected items. *)
Lemma sum_gen_value (cond : value -> res bool) (f : value -> res value)
      (cp : value -> bool) (fp : value -> Q) (l : list value) :
  (forall x b, cond x = Ok b -> b = cp x) ->
  (forall x a q, f x = Ok a -> num a = Some q -> q = fp x) ->
  forall acc total qa,
    num acc = Some qa -> sum_gen cond f l acc = Ok total ->
    exists qt, num total = Some qt /\ (qt == qa + Qsum (map fp (filter cp l)))%Q.
Proof.
  intros Hc Hf. induction l as [|x l IH]; simpl; intros acc total qa Hacc H.
  - injection H as <-. exists qa. split; [assumption | ring].
  - inv_bind H. rewrite <- (Hc _ _ Hx). destruct x0.
    + inv_binds H.
      destruct (py_add_num _ _ _ Hx1) as (q1 & q2 & q3 & H1 & H2 & H3 & Heq).
      destruct (IH _ _ _ H3 H) as (qt & Hqt & Heqt).
      exists qt. split; [assumption|]. simpl.
      rewrite Heqt, Heq. rewrite <- (Hf _ _ _ Hx0 H2).
      assert (q1 = qa) by congruence. subst. ring.
    + eauto.
Qed.

Lemma always_spec (x : value) (b : bool) : always x = Ok b -> b = true.
Proof. unfold always. congruence. Qed.

Lemma field_eq_spec' (f : string) (v x : value) (b : bool) :
  field_eq f v x = Ok b -> b = has_field_eq f v x.
Proof. intro H. symmetry. now apply field_eq_spec. Qed.

Lemma amount_spec (x a : value) (q : Q) :
  field "amount" x = Ok a -> num a = Some q -> q = amount_of x.
Proof.
  unfold field, amount_of. intros H Hq. apply py_getitem_field in H.
  now rewrite H, Hq.
Qed.

Lemma py_sum_amounts (src : value) (items : list value) (total : value) :
  py_iter src = Ok items ->
  py_sum src always (field "amount") = Ok total ->
  exists qt, num total = Some qt /\ (qt == Qsum (map amount_of items))%Q.
Proof.
  unfold py_sum. intros Hit H. rewrite Hit, bind_Ok in H.
  destruct (sum_gen_value always (field "amount") (fun _ => true) amount_of items
              always_spec amount_spec (VInt 0) total 0%Q eq_refl H) as (qt & Hqt & Heq).
  exists qt. split; [assumption|]. rewrite Heq, filter_all. ring.
Qed.

Lemma py_sum_status_amounts (st : string) (src : value) (items : list value)
      (total : value) :
  py_iter src = Ok items ->
  py_sum src (field_eq "status" (VStr st)) (field "amount") = Ok total ->
  exists qt, num total = Some qt /\ (qt == revenue_of st items)%Q.
Proof.
  unfold py_sum. intros Hit H. rewrite Hit, bind_Ok in H.
  destruct (sum_gen_value (field_eq "status" (VStr st)) (field "amount")
              (has_field_eq "status" (VStr st)) amount_of items
              (field_eq_spec' "status" (VStr st)) amount_spec (VInt 0) total 0%Q
              eq_refl H) as (qt & Hqt & Heq).
  exists qt. split; [assumption|]. rewrite Heq. unfold revenue_of, with_status. ring.
Qed.

(** ** Sales analysis *)

Lemma chars_length (s : string) : List.length (chars s) = String.length s.
Proof. induction s; simpl; congruence. Qed.

(** Length and truth value of anything that can be iterated. *)
Lemma iter_len_truthy (v : value) (items : list value) :
  py_iter v = Ok items ->
  py_len v = Ok (List.length items) /\
  py_truthy v = match items with [] => false | _ :: _ => true end.
Proof.
  destruct v; simpl; try discriminate; intro H; injection H as <-.
  - rewrite chars_length. split; [reflexivity|]. destruct s; reflexivity.
  - split; [reflexivity|]. destruct l; reflexivity.
  - unfold dict_keys. rewrite !length_map. split; [reflexivity|].
    destruct d; reflexivity.
Qed.

Lemma py_truediv_num (a b c : value) :
  py_truediv a b = Ok c ->
  exists qa qb,
    num a = Some qa /\ num b = Some qb /\ c = VFloat (Qred (qa / qb)).
Proof.
  unfold py_truediv. destruct (num a) as [qa|], (num b) as [qb|]; try discriminate.
  destruct (Qeq_bool qb 0); intro H; [discriminate|]. injection H as <-.
  exists qa, qb. auto.
Qed.

(** Whenever [analyze_sales_performance] returns: the deals analysed
    are all sales when the region argument is falsy, and the sales of
    that region otherwise; [total_deals] is their number,
    [total_amount] the sum of their amounts, [closed_amount] the sum
    over those with status "Closed Won", [deals_by_status] the number
    of deals per status (adding up to [total_deals]), and
    [average_deal_size] is [total_amount / total_deals], or the integer
    [0] when no deal is left. *)
Theorem sales_analysis_figures (fs : files) (region r : value) :
  analyze_sales_performance fs region = Ok r ->
  exists data all deals by_status total closed average qt qc,
    load_data fs "sales.json" = Ok data /\ py_iter data = Ok all /\
    deals = (if py_truthy region
             then filter (has_field_eq "region" region) all else all) /\
    py_getitem r "region"
      = Ok (if py_truthy region then region else VStr "All Regions") /\
    py_getitem r "total_deals" = Ok (VLen (List.length deals)) /\
    py_getitem r "total_amount" = Ok total /\
    num total = Some qt /\ (qt == Qsum (map amount_of deals))%Q /\
    py_getitem r "closed_amount" = Ok closed /\
    num closed = Some qc /\ (qc == revenue_of "Closed Won" deals)%Q /\
    py_getitem r "deals_by_status" = Ok (VDict by_status) /\
    (forall k, count_of by_status k = occurrences "status" k deals) /\
    table_total by_status = Z.of_nat (List.length deals) /\
    py_getitem r "average_deal_size" = Ok average /\
    match deals with
    | [] => average = VInt 0
    | _ :: _ =>
        exists q, average = VFloat q /\
                  (q == qt / inject_Z (Z.of_nat (List.length deals)))%Q
    end.
Proof.
  unfold analyze_sales_performance. intro H. inv_binds H. injection H as <-.
  rename x into data, x0 into filtered, x1 into deals.
  assert (Hdeals : exists all, py_iter data = Ok all /\
            deals = (if py_truthy region
                     then filter (has_field_eq "region" region) all else all)).
  { destruct (py_truthy region).
    - inv_bind Hx0. injection Hx0 as <-. simpl in Hx1. injection Hx1 as <-.
      unfold comprehension in Hx9. inv_bind Hx9.
      apply filter_m_field_eq in Hx9. eauto.
    - injection Hx0 as <-. eauto. }
  destruct Hdeals as (all & Hall & Hdeals).
  destruct (iter_len_truthy _ _ Hx1) as [Hlen Htruthy].
  rewrite Hlen in Hx6. injection Hx6 as <-.
  destruct (tally_sales_counts deals [] x2 eq_refl Hx2) as (_ & Htot & Hcount).
  destruct (py_sum_amounts _ _ _ Hx1 Hx3) as (qt & Hqt & Heqt).
  destruct (py_sum_status_amounts "Closed Won" _ _ _ Hx1 Hx4) as (qc & Hqc & Heqc).
  exists data, all, deals, x2, x3, x4, x5, qt, qc.
  split; [assumption|]. split; [assumption|]. split; [assumption|].
  split; [reflexivity|]. split; [reflexivity|]. split; [reflexivity|].
  split; [assumption|]. split; [assumption|]. split; [reflexivity|].
  split; [assumption|]. split; [assumption|]. split; [reflexivity|].
  split; [intro k; rewrite Hcount; reflexivity|].
  split; [rewrite Htot; reflexivity|].
  split; [reflexivity|].
  rewrite Htruthy, Hlen in Hx5. destruct deals as [|d0 deals'].
  - now injection Hx5 as <-.
  - rewrite bind_Ok in Hx5.
    destruct (py_truediv_num _ _ _ Hx5) as (qa & qb & Ha & Hb & ->).
    exists (Qred (qa / qb)). split; [reflexivity|].
    rewrite Qred_correct. unfold VLen in Hb. simpl in Hb.
    assert (qa = qt) by congruence. injection Hb as <-. subst. reflexivity.
Qed.

(** ** The tools agree with one another *)

(** Summing with a test in the generator is summing over the filtered
    list. *)
Lemma sum_gen_filter (cond : value -> res bool) (f : value -> res value)
      (l l' : list value) :
  filter_m cond l = Ok l' ->
  forall acc, sum_gen cond f l acc = sum_gen always f l' acc.
Proof.
  revert l'. induction l as [|x l IH]; simpl; intros l' H acc.
  - now injection H as <-.
  - inv_binds H. injection H as <-. rewrite Hx, bind_Ok.
    destruct x0; simpl.
    + destruct (f x) as [y|e]; simpl; [|reflexivity].
      destruct (py_add acc y) as [acc'|e]; simpl; [|reflexivity]. now apply IH.
    + now apply IH.
Qed.

Lemma closed_sum_same (src : value) (v : value) (f : value -> res value)
      (closed : list value) (t1 t2 : value) :
  comprehension src (field_eq "status" v) = Ok closed ->
  py_sum (VList closed) always f = Ok t1 ->
  py_sum src (field_eq "status" v) f = Ok t2 ->
  t1 = t2.
Proof.
  unfold comprehension, py_sum. intros Hc H1 H2. inv_bind Hc.
  rewrite Hx, bind_Ok in H2. simpl in H1.
  rewrite (sum_gen_filter _ f _ _ Hc) in H2. congruence.
Qed.

(** Two runs of the same computation gave the same value. *)
Ltac same_run :=
  repeat match goal with
         | H1 : ?c = Ok ?a, H2 : ?c = Ok ?a |- _ => clear H2
         | H1 : ?c = Ok ?a, H2 : ?c = Ok ?b |- _ =>
             rewrite H1 in H2; injection H2 as <-
         end.

(** Whenever the overview returns, its [business_health] figures are
    the figures the single tools report on the same data: [revenue] is
    the [total_closed_revenue] of the revenue summary and the
    [closed_amount] of the unfiltered sales analysis, [open_tickets] is
    the [open_tickets_count], and [top_performers] is the [count] of
    the unfiltered top-performer list. *)
Theorem overview_agrees_with_tools (fs : files) (overview : value) :
  get_business_overview fs = Ok overview ->
  exists health,
    py_getitem overview "business_health" = Ok health /\
    (forall r, get_revenue_summary fs = Ok r ->
       py_getitem r "total_closed_revenue" = py_getitem health "revenue") /\
    (forall region r,
       py_truthy region = false -> analyze_sales_performance fs region = Ok r ->
       py_getitem r "closed_amount" = py_getitem health "revenue") /\
    (forall r, get_open_tickets fs = Ok r ->
       py_getitem r "open_tickets_count" = py_getitem health "open_tickets") /\
    (forall department r,
       py_truthy department = false -> get_top_performers fs department = Ok r ->
       py_getitem r "count" = py_getitem health "top_performers").
Proof.
  unfold get_business_overview. intro H. inv_binds H. injection H as <-.
  eexists. split; [reflexivity|].
  split; [|split; [|split]].
  - intros r Hr. unfold get_revenue_summary in Hr. inv_binds Hr. injection Hr as <-.
    same_run. simpl. f_equal.
    match goal with
    | Hc : comprehension _ (field_eq "status" (VStr "Closed Won")) = Ok ?c,
      H1 : py_sum (VList ?c) always _ = Ok _,
      H2 : py_sum _ (field_eq "status" (VStr "Closed Won")) _ = Ok _ |- _ =>
        exact (closed_sum_same _ _ _ _ _ _ Hc H1 H2)
    end.
  - intros region r Hreg Hr. unfold analyze_sales_performance in Hr.
    rewrite Hreg in Hr. inv_binds Hr. injection Hr as <-.
    match goal with
    | Hf : Ok _ = Ok _ |- _ => injection Hf as <-
    end.
    same_run. reflexivity.
  - intros r Hr. unfold get_open_tickets in Hr. inv_binds Hr. injection Hr as <-.
    same_run. reflexivity.
  - intros department r Hdep Hr. unfold get_top_performers in Hr.
    rewrite Hdep in Hr. inv_binds Hr. injection Hr as <-.
    match goal with
    | Hf : Ok _ = Ok _ |- _ => injection Hf as <-
    end.
    same_run. reflexivity.
Qed.

(** ** Bounds on the revenue summary *)

Lemma has_field_eq_str_unique (f : string) (x : value) (a b : string) :
  has_field_eq f (VStr a) x = true -> has_field_eq f (VStr b) x = true -> a = b.
Proof.
  unfold has_field_eq. destruct (get_field f x) as [v|]; [|discriminate].
  intros Ha Hb. apply py_eq_str in Ha, Hb. congruence.
Qed.

Lemma three_filters_bound (p1 p2 p3 : value -> bool) (l : list value) :
  (forall x, p1 x = true -> p2 x = false /\ p3 x = false) ->
  (forall x, p2 x = true -> p3 x = false) ->
  (List.length (filter p1 l) + List.length (filter p2 l)
   + List.length (filter p3 l) <= List.length l)%nat.
Proof.
  intros H1 H2. induction l as [|x l IH]; simpl; [lia|].
  destruct (p1 x) eqn:E1.
  - destruct (H1 x E1) as [-> ->]. simpl. lia.
  - destruct (p2 x) eqn:E2.
    + rewrite (H2 x E2). simpl. lia.
    + destruct (p3 x); simpl; lia.
Qed.

Lemma filter_length_le (A : Type) (p : A -> bool) (l : list A) :
  (List.length (filter p l) <= List.length l)%nat.
Proof.
  induction l as [|x l IH]; simpl; [lia|]. destruct (p x); simpl; lia.
Qed.

Lemma ratio_in_unit_interval (a b : nat) :
  (a <= b)%nat -> (0 < b)%nat ->
  (0 <= inject_Z (Z.of_nat a) / inject_Z (Z.of_nat b) <= 1)%Q.
Proof.
  intros Hab Hb.
  assert (Hpos : (0 < inject_Z (Z.of_nat b))%Q).
  { unfold Qlt, inject_Z. cbn [Qnum Qden]. lia. }
  split.
  - apply Qle_shift_div_l; [assumption|]. rewrite Qmult_0_l.
    unfold Qle, inject_Z. cbn [Qnum Qden]. lia.
  - apply Qle_shift_div_r; [assumption|]. rewrite Qmult_1_l.
    unfold Qle, inject_Z. cbn [Qnum Qden]. lia.
Qed.

(** Whenever [get_revenue_summary] returns: the three deal counts are
    the numbers of sales with status "Closed Won", "In Progress" and
    "Lost"; together they never exceed the number of sales; and
    [win_rate] is a number between 0 and 1. *)
Theorem revenue_summary_bounds (fs : files) (r : value) :
  get_revenue_summary fs = Ok r ->
  exists data sales rate q,
    load_data fs "sales.json" = Ok data /\ py_iter data = Ok sales /\
    py_getitem r "closed_deals"
      = Ok (VLen (List.length (with_status "Closed Won" sales))) /\
    py_getitem r "deals_in_progress"
      = Ok (VLen (List.length (with_status "In Progress" sales))) /\
    py_getitem r "lost_deals"
      = Ok (VLen (List.length (with_status "Lost" sales))) /\
    (List.length (with_status "Closed Won" sales)
     + List.length (with_status "In Progress" sales)
     + List.length (with_status "Lost" sales) <= List.length sales)%nat /\
    py_getitem r "win_rate" = Ok rate /\
    num rate = Some q /\ (0 <= q <= 1)%Q.
Proof.
  unfold get_revenue_summary. intro H. inv_binds H. injection H as <-.
  rename x into data.
  unfold comprehension in Hx0, Hx1, Hx2.
  inv_bind Hx0. inv_bind Hx1. inv_bind Hx2. same_run. rename x into sales.
  apply filter_m_field_eq in Hx0, Hx1, Hx2.
  fold (with_status "Closed Won" sales) in Hx0.
  fold (with_status "In Progress" sales) in Hx1.
  fold (with_status "Lost" sales) in Hx2. subst.
  destruct (iter_len_truthy _ _ Hx8) as [Hlen Htruthy].
  assert (Hrate : exists q, num x5 = Some q /\ (0 <= q <= 1)%Q).
  { rewrite Htruthy, Hlen in Hx5. destruct sales as [|s0 sales'].
    - injection Hx5 as <-. exists 0%Q. split; [reflexivity|].
      split; apply Qle_refl || (unfold Qle; simpl; lia).
    - rewrite bind_Ok in Hx5.
      remember (List.length (with_status "Closed Won" (s0 :: sales'))) as c eqn:Ec.
      remember (List.length (s0 :: sales')) as n eqn:En.
      destruct (py_truediv_num _ _ _ Hx5) as (qa & qb & Ha & Hb & ->).
      unfold VLen in Ha, Hb. cbn [num] in Ha, Hb.
      injection Ha as <-. injection Hb as <-.
      eexists. split; [reflexivity|]. rewrite Qred_correct.
      apply ratio_in_unit_interval; subst c n;
        [apply filter_length_le | simpl; lia]. }
  destruct Hrate as (q & Hq & Hbound).
  exists data, sales, x5, q.
  split; [assumption|]. split; [assumption|].
  split; [reflexivity|]. split; [reflexivity|]. split; [reflexivity|].
  split.
  { apply three_filters_bound.
    - intros s Hs. split.
      + destruct (has_field_eq "status" (VStr "In Progress") s) eqn:E; [|reflexivity].
        pose proof (has_field_eq_str_unique _ _ _ _ Hs E). discriminate.
      + destruct (has_field_eq "status" (VStr "Lost") s) eqn:E; [|reflexivity].
        pose proof (has_field_eq_str_unique _ _ _ _ Hs E). discriminate.
    - intros s Hs.
      destruct (has_field_eq "status" (VStr "Lost") s) eqn:E; [|reflexivity].
      pose proof (has_field_eq_str_unique _ _ _ _ Hs E). discriminate. }
  split; [reflexivity|]. split; assumption.
Qed.

(** ** Registry and dispatcher *)

Lemma registered_In (name : string) :
  registered name = true -> In name registry_names.
Proof.
  unfold registered. intro H. apply existsb_exists in H.
  destruct H as (n & Hin & He). apply String.eqb_eq in He. now subst.
Qed.

Lemma top_performers_on_empty (fs : files) (department : value) :
  absent_or_empty fs "hr.json" ->
  exists r, get_top_performers fs department = Ok r /\
            has_summary r /\ get_field "error" r = None.
Proof.
  intro H. apply load_data_absent_or_empty in H.
  unfold get_top_performers. rewrite H.
  destruct (py_truthy department); simpl;
    eexists; (split; [reflexivity|]); split; try reflexivity;
    eexists; (split; [reflexivity|]); starts_with_literal.
Qed.

Lemma sales_analysis_on_empty (fs : files) (region : value) :
  absent_or_empty fs "sales.json" ->
  exists r, analyze_sales_performance fs region = Ok r /\
            has_summary r /\ get_field "error" r = None.
Proof.
  intro H. apply load_data_absent_or_empty in H.
  unfold analyze_sales_performance. rewrite H.
  destruct (py_truthy region); simpl;
    eexists; (split; [reflexivity|]); split; try reflexivity;
    eexists; (split; [reflexivity|]); starts_with_literal.
Qed.

(** The registry and the dispatcher know the same tools: with no data
    at hand, every name listed by [get_available_tools] is answered by
    a result with a summary and no [error], whatever arguments object
    comes with it, and every other name by the "Unknown tool" error;
    the listed names are five and all different. *)
Theorem registry_matches_dispatcher (fs : files) (name : string) (arguments : dict) :
  absent_or_empty fs "sales.json" ->
  absent_or_empty fs "hr.json" ->
  absent_or_empty fs "support.json" ->
  NoDup registry_names /\ List.length registry_names = 5%nat /\
  exists result,
    handle_tool_call fs (VStr name) (VDict arguments) = Ok result /\
    if registered name
    then has_summary result /\ get_field "error" result = None
    else get_field "error" result = Some (VStr ("Unknown tool: " ++ name)) /\
         get_field "summary" result = None.
Proof.
  intros Hs Hh Ht.
  split.
  { rewrite registry_names_eq.
    repeat (constructor; [simpl; intuition discriminate|]). constructor. }
  split; [reflexivity|].
  destruct (registered name) eqn:Hreg.
  - apply registered_In in Hreg. rewrite registry_names_eq in Hreg. simpl in Hreg.
    unfold handle_tool_call, run_tool.
    destruct Hreg as [<-|[<-|[<-|[<-|[<-|[]]]]]]; simpl.
    + apply load_data_absent_or_empty in Hs.
      unfold get_revenue_summary. rewrite Hs. simpl.
      eexists. split; [reflexivity|]. split; [|reflexivity].
      eexists. split; [reflexivity | starts_with_literal].
    + destruct (top_performers_on_empty fs
                  (match dict_get arguments (KStr "department") with
                   | Some x => x | None => VNone end) Hh) as (r & Hr & Hsum & Herr).
      destruct (dict_get arguments (KStr "department")); simpl; rewrite Hr; simpl; eauto.
    + apply load_data_absent_or_empty in Ht.
      unfold get_open_tickets. rewrite Ht. simpl.
      eexists. split; [reflexivity|]. split; [|reflexivity].
      eexists. split; [reflexivity | starts_with_literal].
    + destruct (sales_analysis_on_empty fs
                  (match dict_get arguments (KStr "region") with
                   | Some x => x | None => VNone end) Hs) as (r & Hr & Hsum & Herr).
      destruct (dict_get arguments (KStr "region")); simpl; rewrite Hr; simpl; eauto.
    + apply load_data_absent_or_empty in Hs, Hh, Ht.
      unfold get_business_overview. rewrite Hs, Hh, Ht. simpl.
      eexists. split; [reflexivity|]. split; [|reflexivity].
      eexists. split; [reflexivity | starts_with_literal].
  - unfold handle_tool_call. rewrite (run_tool_unknown fs name (VDict arguments) Hreg).
    simpl. eexists. split; [reflexivity|]. split; reflexivity.
Qed.

(** ** The tool listing *)

(** A [tools/list] message is answered by one frame of that type that
    carries the request identifier of the message ([None] when the
    message has none) and the listing that [GET /tools] returns, and
    the data files are never read for it. *)
Theorem tools_list_answer (fs : files) (t : turn) (data : text) (message : dict) :
  received t = RecvText data -> json_loads data = Ok (VDict message) ->
  dict_get message (KStr "type") = Some (VStr "tools/list") ->
  send_fault t = None ->
  loop_body fs t
  = Ok (Some {| resp_type := "tools/list";
                resp_request_id := field_or_none "request_id" (VDict message);
                resp_result := Tools get_available_tools |}) /\
  list_tools = Ok (obj [("tools", get_available_tools)]) /\
  loop_body fs t = loop_body no_files t.
Proof.
  intros Hrecv Hload Hty Hsend.
  assert (H : forall fs', loop_body fs' t
            = Ok (Some {| resp_type := "tools/list";
                          resp_request_id := field_or_none "request_id" (VDict message);
                          resp_result := Tools get_available_tools |})).
  { intro fs'. unfold loop_body, receive_text, send_text.
    rewrite Hrecv, Hsend, bind_Ok, Hload, bind_Ok, py_get_dict, Hty, bind_Ok.
    cbn [py_eq String.eqb Ascii.eqb Bool.eqb andb].
    rewrite py_get_dict, !bind_Ok. reflexivity. }
  split; [apply H|]. split; [reflexivity|]. now rewrite !H.
Qed.

(** ** The session registry *)

Lemma registrations_app (c : conn) (l m : list conn) :
  registrations c (l ++ m)%list = (registrations c l + registrations c m)%nat.
Proof.
  unfold registrations. now rewrite filter_app, length_app.
Qed.

Lemma registrations_remove_first (c ws : conn) (l : list conn) :
  In ws l ->
  registrations c l
  = (registrations c (remove_first ws l) + if Nat.eqb c ws then 1 else 0)%nat.
Proof.
  unfold registrations. induction l as [|a l IH]; simpl; [tauto|].
  intros Hin. destruct (Nat.eqb a ws) eqn:E.
  - apply Nat.eqb_eq in E. subst a. destruct (Nat.eqb c ws); simpl; lia.
  - destruct Hin as [->|Hin]; [rewrite Nat.eqb_refl in E; discriminate|].
    simpl. destruct (Nat.eqb c a); simpl; rewrite (IH Hin); lia.
Qed.

Lemma serve_registry (fs : files) (ws : conn) (turns : list turn) :
  forall clients sent,
    connected_clients (serve fs ws clients turns sent)
    = if is_open (state (serve fs ws clients turns sent))
      then clients else remove_first ws clients.
Proof.
  induction turns as [|t turns IH]; intros clients sent; simpl; [reflexivity|].
  destruct (loop_body fs t) as [[r|]|e]; try apply IH.
  simpl. destruct (is_disconnect e); reflexivity.
Qed.

(** A session registers itself once when it is accepted and takes one
    registration of itself away when its loop is left; the
    registrations of every other connection stay as they were. *)
Theorem session_registers_only_itself
        (fs : files) (ws : conn) (clients : list conn) (turns : list turn) (c : conn) :
  let s := websocket_endpoint fs ws clients turns in
  registrations c (connected_clients s)
  = (registrations c clients
     + if Nat.eqb c ws && is_open (state s) then 1 else 0)%nat.
Proof.
  unfold websocket_endpoint. cbv zeta. rewrite serve_registry.
  destruct (is_open (state (serve fs ws (clients ++ [ws])%list turns []))).
  - rewrite registrations_app. unfold registrations at 2. simpl.
    rewrite andb_true_r. destruct (Nat.eqb c ws); reflexivity.
  - rewrite andb_false_r.
    assert (Hin : In ws (clients ++ [ws])%list) by (apply in_or_app; right; now left).
    pose proof (registrations_remove_first c ws _ Hin) as H.
    rewrite registrations_app in H. unfold registrations at 2 in H. simpl in H.
    destruct (Nat.eqb c ws); simpl in H; lia.
Qed.

(* ================================================================== *)
(** * Properties of the dashboard *)
(* ================================================================== *)

(** ** Loading the local data *)

(** The dashboard loads its three datasets together or not at all: when
    the three files can be read it holds their contents, and when any
    one of them cannot, all three datasets are the empty list, also
    those whose file was read. *)
Theorem dashboard_load_is_all_or_nothing (fs : files) (base_path : string) :
  exists d,
    BusinessDashboard.load_data fs base_path = Ok d /\
    ((exists sales hr support,
        fs (base_path ++ "/sales.json") = Ok sales /\
        fs (base_path ++ "/hr.json") = Ok hr /\
        fs (base_path ++ "/support.json") = Ok support /\
        d = {| BusinessDashboard.sales_data := sales;
               BusinessDashboard.hr_data := hr;
               BusinessDashboard.support_data := support |}) \/
     ((exists e, fs (base_path ++ "/sales.json") = Raise e \/
                 fs (base_path ++ "/hr.json") = Raise e \/
                 fs (base_path ++ "/support.json") = Raise e) /\
      d = BusinessDashboard.no_data)).
Proof.
  unfold BusinessDashboard.load_data.
  destruct (fs (base_path ++ "/sales.json")) as [sales|e] eqn:Es; simpl.
  2:{ eexists. split; [reflexivity|]. right. split; [eauto | reflexivity]. }
  destruct (fs (base_path ++ "/hr.json")) as [hr|e] eqn:Eh; simpl.
  2:{ eexists. split; [reflexivity|]. right. split; [eauto | reflexivity]. }
  destruct (fs (base_path ++ "/support.json")) as [support|e] eqn:Et; simpl.
  2:{ eexists. split; [reflexivity|]. right. split; [eauto | reflexivity]. }
  eexists. split; [reflexivity|]. left. exists sales, hr, support. auto.
Qed.

(** ** Calling a tool *)

(** [call_mcp_tool] never raises. It returns the [result] member of the
    body (or an empty object when there is none) only for a 200
    response whose body is a JSON object; a response with another
    status gives [{"error": "Server returned <status>"}], and a failed
    request, a body that is not JSON or not an object gives
    [{"error": "Connection failed: ..."}]. *)
Theorem call_mcp_tool_outcomes
        (requests_post : BusinessDashboard.http_post) (tool_name : string)
        (arguments : dict) :
  exists result,
    BusinessDashboard.call_mcp_tool requests_post tool_name (VDict arguments)
    = Ok result /\
    match requests_post (BusinessDashboard.mcp_server_url ++ "/tools/" ++ tool_name)
                        (json_dumps (VDict arguments)) with
    | Raise e => result = error_result ("Connection failed: " ++ str_exn e)
    | Ok r =>
        if Z.eqb (BusinessDashboard.status_code r) 200
        then match json_loads (BusinessDashboard.body r) with
             | Ok (VDict d) =>
                 result = match dict_get d (KStr "result") with
                          | Some x => x
                          | None => VDict []
                          end
             | Ok other =>
                 result = error_result
                            ("Connection failed: '" ++ type_name other
                             ++ "' object has no attribute 'get'")
             | Raise e => result = error_result ("Connection failed: " ++ str_exn e)
             end
        else result = error_result
                        ("Server returned "
                         ++ str_of_Z (BusinessDashboard.status_code r))
    end.
Proof.
  unfold BusinessDashboard.call_mcp_tool.
  destruct (requests_post _ _) as [r|e]; simpl; [|eauto].
  destruct (Z.eqb (BusinessDashboard.status_code r) 200); simpl; [|eauto].
  destruct (json_loads (BusinessDashboard.body r)) as [decoded|e]; simpl; [|eauto].
  destruct decoded; simpl; eauto.
  destruct (dict_get d (KStr "result")); simpl; eauto.
Qed.

Lemma through_json_result (result : value) :
  (decoded <- json_loads (json_dumps (obj [("result", result)])) ;;
   py_get decoded "result" (VDict [])) = Ok (through_json result).
Proof. reflexivity. Qed.

(** Over a transport that delivers, [call_mcp_tool] returns what
    [handle_tool_call] of the server returns for the same tool and the
    arguments as they arrive, after its passage through JSON; with no
    arguments given the server is called with the empty object. *)
Theorem call_mcp_tool_reaches_dispatcher
        (fs : files) (requests_post : BusinessDashboard.http_post)
        (tool_name : string) (arguments : dict) :
  delivers fs requests_post ->
  exists result,
    handle_tool_call fs (VStr tool_name) (through_json (VDict arguments))
    = Ok result /\
    BusinessDashboard.call_mcp_tool requests_post tool_name (VDict arguments)
    = Ok (through_json result) /\
    (arguments = [] ->
     BusinessDashboard.call_mcp_tool requests_post tool_name VNone
     = Ok (through_json result)).
Proof.
  intro Hpost.
  destruct (handle_tool_call_total fs (VStr tool_name) (through_json (VDict arguments)))
    as [result Hres].
  exists result. split; [exact Hres|].
  assert (Hcall : BusinessDashboard.call_mcp_tool requests_post tool_name
                    (VDict arguments) = Ok (through_json result)).
  { unfold BusinessDashboard.call_mcp_tool.
    unfold json_dumps at 1. cbn [json_encode]. rewrite Hpost.
    unfold call_tool.
    change (VDict (arguments_of
                     (map (fun kv : key * value =>
                             let '(k, x) := kv in (key_text k, json_encode x))
                          arguments)))
      with (through_json (VDict arguments)).
    rewrite Hres, !bind_Ok. cbn [BusinessDashboard.status_code BusinessDashboard.body].
    simpl Z.eqb. cbv iota. rewrite through_json_result. reflexivity. }
  split; [exact Hcall|]. intros ->. exact Hcall.
Qed.

Lemma call_mcp_tool_reaches_dispatcher_core
      (fs : files) (requests_post : BusinessDashboard.http_post) (tool_name : string) :
  delivers fs requests_post ->
  exists result,
    handle_tool_call fs (VStr tool_name) (VDict []) = Ok result /\
    BusinessDashboard.call_mcp_tool requests_post tool_name VNone
    = Ok (through_json result).
Proof.
  intro Hpost.
  destruct (handle_tool_call_total fs (VStr tool_name) (VDict [])) as [result Hres].
  exists result. split; [exact Hres|].
  unfold BusinessDashboard.call_mcp_tool.
  unfold json_dumps at 1. cbn [json_encode map]. rewrite Hpost.
  unfold call_tool.
  change (VDict (arguments_of [])) with (VDict []).
  rewrite Hres, !bind_Ok. cbn [BusinessDashboard.status_code BusinessDashboard.body].
  simpl Z.eqb. cbv iota. rewrite through_json_result. reflexivity.
Qed.

(** ** What a tool button shows *)

Lemma obj_through_json (l : list (string * value)) :
  keys_distinct (map (fun kv => KStr (fst kv)) l) = true ->
  through_json (obj l)
  = obj (map (fun kv => (fst kv, through_json (snd kv))) l).
Proof.
  intro Hkeys. unfold through_json, obj. cbn [json_encode json_decode].
  rewrite !map_map. f_equal. unfold dict_of_pairs.
  rewrite dict_of_pairs_distinct.
  - reflexivity.
  - simpl. rewrite map_map. simpl. exact Hkeys.
Qed.

Lemma get_field_obj_map (k : string) (g : value -> value) (l : list (string * value)) :
  get_field k (obj (map (fun kv => (fst kv, g (snd kv))) l))
  = option_map g (get_field k (obj l)).
Proof.
  unfold obj. simpl. rewrite map_map. simpl.
  induction l as [|[a v] l IH]; simpl; [reflexivity|].
  destruct (key_eqb (KStr a) (KStr k)); [reflexivity | exact IH].
Qed.

Ltac literal_object :=
  eexists; split; [reflexivity | reflexivity].

(** Every result of the dispatcher's [try] block is an object literal
    with different member names. *)
Lemma run_tool_shape (fs : files) (tool_name arguments r : value) :
  run_tool fs tool_name arguments = Ok r ->
  exists l, r = obj l /\ keys_distinct (map (fun kv => KStr (fst kv)) l) = true.
Proof.
  unfold run_tool. intro H.
  repeat match type of H with
         | (if ?c then _ else _) = _ => destruct c
         end.
  - unfold get_revenue_summary in H. inv_binds H. injection H as <-. literal_object.
  - inv_bind H. unfold get_top_performers in H. inv_binds H. injection H as <-.
    literal_object.
  - unfold get_open_tickets in H. inv_binds H. injection H as <-. literal_object.
  - inv_bind H. unfold analyze_sales_performance in H. inv_binds H.
    injection H as <-. literal_object.
  - unfold get_business_overview in H. inv_binds H. injection H as <-. literal_object.
  - injection H as <-. literal_object.
Qed.

Lemma through_json_field (fs : files) (tool_name arguments r : value) (k : string) :
  run_tool fs tool_name arguments = Ok r ->
  get_field k (through_json r) = option_map through_json (get_field k r).
Proof.
  intro H. destruct (run_tool_shape _ _ _ _ H) as (l & -> & Hkeys).
  rewrite (obj_through_json l Hkeys). apply get_field_obj_map.
Qed.

Lemma executor_result_no_error (fs : files) (name : string) (arguments r : value) :
  registered name = true ->
  run_tool fs (VStr name) arguments = Ok r ->
  get_field "error" r = None.
Proof.
  intros Hreg H. apply registered_In in Hreg.
  rewrite registry_names_eq in Hreg. simpl in Hreg. unfold run_tool in H.
  destruct Hreg as [<-|[<-|[<-|[<-|[<-|[]]]]]]; simpl in H.
  - unfold get_revenue_summary in H. inv_binds H. now injection H as <-.
  - inv_bind H. unfold get_top_performers in H. inv_binds H. now injection H as <-.
  - unfold get_open_tickets in H. inv_binds H. now injection H as <-.
  - inv_bind H. unfold analyze_sales_performance in H. inv_binds H.
    now injection H as <-.
  - unfold get_business_overview in H. inv_binds H. now injection H as <-.
Qed.

Lemma executor_result_summary (fs : files) (name : string) (arguments r : value) :
  registered name = true ->
  run_tool fs (VStr name) arguments = Ok r -> has_summary r.
Proof.
  intros Hreg H. apply registered_In in Hreg.
  rewrite registry_names_eq in Hreg. simpl in Hreg. unfold run_tool in H.
  destruct Hreg as [<-|[<-|[<-|[<-|[<-|[]]]]]]; simpl in H.
  - eapply get_revenue_summary_has_summary; eauto.
  - inv_bind H. eapply get_top_performers_has_summary; eauto.
  - eapply get_open_tickets_has_summary; eauto.
  - inv_bind H. eapply analyze_sales_performance_has_summary; eauto.
  - eapply get_business_overview_has_summary; eauto.
Qed.

Lemma tool_button_of_result (requests_post : BusinessDashboard.http_post)
      (tool_name : string) (d : dict) :
  BusinessDashboard.call_mcp_tool requests_post tool_name VNone = Ok (VDict d) ->
  BusinessDashboard.tool_button requests_post tool_name
  = match dict_get d (KStr "error") with
    | Some shown => Ok (BusinessDashboard.error shown)
    | None =>
        Ok (BusinessDashboard.success
              (match dict_get d (KStr "summary") with
               | Some shown => shown
               | None => VStr "Success"
               end))
    end.
Proof.
  intro H. unfold BusinessDashboard.tool_button. rewrite H, bind_Ok.
  simpl. destruct (dict_get d (KStr "error")); simpl; [reflexivity|].
  destruct (dict_get d (KStr "summary")); reflexivity.
Qed.

(** Over a transport that delivers, a tool button shows the outcome of
    the server's executor: the summary of the result when the executor
    of a registered tool returns, the text of the fault when it raises,
    and "Unknown tool: <name>" for a name the server does not know. *)
Theorem tool_button_shows_outcome
        (fs : files) (requests_post : BusinessDashboard.http_post) (name : string) :
  delivers fs requests_post ->
  match run_tool fs (VStr name) (VDict []) with
  | Ok r =>
      if registered name
      then exists summary,
             py_getitem r "summary" = Ok (VStr summary) /\ summary <> EmptyString /\
             BusinessDashboard.tool_button requests_post name
             = Ok (BusinessDashboard.success (VStr summary))
      else BusinessDashboard.tool_button requests_post name
           = Ok (BusinessDashboard.error (VStr ("Unknown tool: " ++ name)))
  | Raise e =>
      BusinessDashboard.tool_button requests_post name
      = Ok (BusinessDashboard.error (VStr (str_exn e)))
  end.
Proof.
  intro Hpost.
  destruct (call_mcp_tool_reaches_dispatcher_core fs requests_post name Hpost)
    as (result & Hres & Hcall).
  unfold handle_tool_call in Hres.
  destruct (run_tool fs (VStr name) (VDict [])) as [r|e] eqn:Hrun;
    simpl in Hres; injection Hres as <-.
  - destruct (run_tool_shape _ _ _ _ Hrun) as (l & Hl & Hkeys).
    assert (Hd : exists d, through_json r = VDict d).
    { subst r. rewrite (obj_through_json l Hkeys). unfold obj. eauto. }
    destruct Hd as [d Hd]. rewrite Hd in Hcall.
    rewrite (tool_button_of_result _ _ _ Hcall).
    pose proof (through_json_field _ _ _ _ "error" Hrun) as Herr.
    pose proof (through_json_field _ _ _ _ "summary" Hrun) as Hsum.
    rewrite Hd in Herr, Hsum. simpl in Herr, Hsum.
    destruct (registered name) eqn:Hreg.
    + rewrite (executor_result_no_error _ _ _ _ Hreg Hrun) in Herr.
      destruct (executor_result_summary _ _ _ _ Hreg Hrun) as (s & Hs & Hne).
      pose proof Hs as Hs'. apply py_getitem_field in Hs'.
      rewrite Hs' in Hsum. simpl in Hsum, Herr.
      fold (get_field "error" (VDict d)) in Herr.
      exists s. split; [exact Hs|]. split; [exact Hne|].
      simpl in Herr. rewrite Herr, Hsum. reflexivity.
    + rewrite (run_tool_unknown fs name (VDict []) Hreg) in Hrun.
      injection Hrun as <-. simpl in Herr. rewrite Herr. reflexivity.
  - change (through_json (error_result (str_exn e)))
      with (error_result (str_exn e)) in Hcall.
    unfold error_result, obj in Hcall. simpl in Hcall.
    rewrite (tool_button_of_result _ _ _ Hcall). reflexivity.
Qed.

(** ** The dashboard's own metrics *)

Lemma get_eq_spec (f s : string) (x : value) (b : bool) :
  get_eq f (VStr s) x = Ok b ->
  is_dict x = true /\ b = has_field_eq f (VStr s) x.
Proof.
  unfold get_eq, has_field_eq. destruct x; simpl; try discriminate.
  destruct (dict_get d (KStr f)); simpl; intro H; injection H as <-; auto.
Qed.

Lemma get_ne_spec (f s : string) (x : value) (b : bool) :
  get_ne f (VStr s) x = Ok b ->
  is_dict x = true /\ b = negb (has_field_eq f (VStr s) x).
Proof.
  unfold get_ne, has_field_eq. destruct x; simpl; try discriminate.
  destruct (dict_get d (KStr f)); simpl; intro H; injection H as <-; auto.
Qed.

Lemma get_eq_dict (f s : string) (x : value) :
  is_dict x = true -> get_eq f (VStr s) x = Ok (has_field_eq f (VStr s) x).
Proof.
  unfold get_eq, has_field_eq. destruct x; simpl; try discriminate. intros _.
  destruct (dict_get d (KStr f)); reflexivity.
Qed.

Lemma get_ne_dict (f s : string) (x : value) :
  is_dict x = true -> get_ne f (VStr s) x = Ok (negb (has_field_eq f (VStr s) x)).
Proof.
  unfold get_ne, has_field_eq. destruct x; simpl; try discriminate. intros _.
  destruct (dict_get d (KStr f)); reflexivity.
Qed.

Lemma filter_m_get_eq (f s : string) (l l' : list value) :
  filter_m (get_eq f (VStr s)) l = Ok l' ->
  forallb is_dict l = true /\ l' = filter (has_field_eq f (VStr s)) l.
Proof.
  revert l'. induction l as [|x l IH]; simpl; intros l' H.
  - injection H as <-. auto.
  - inv_binds H. injection H as <-.
    destruct (get_eq_spec _ _ _ _ Hx) as [Hd ->].
    destruct (IH _ Hx0) as [Hl ->]. now rewrite Hd, Hl.
Qed.

Lemma filter_m_get_ne (f s : string) (l l' : list value) :
  filter_m (get_ne f (VStr s)) l = Ok l' ->
  forallb is_dict l = true /\
  l' = filter (fun x => negb (has_field_eq f (VStr s) x)) l.
Proof.
  revert l'. induction l as [|x l IH]; simpl; intros l' H.
  - injection H as <-. auto.
  - inv_binds H. injection H as <-.
    destruct (get_ne_spec _ _ _ _ Hx) as [Hd ->].
    destruct (IH _ Hx0) as [Hl ->]. now rewrite Hd, Hl.
Qed.

Lemma filter_m_get_eq_dicts (f s : string) (l : list value) :
  forallb is_dict l = true ->
  filter_m (get_eq f (VStr s)) l = Ok (filter (has_field_eq f (VStr s)) l).
Proof.
  induction l as [|x l IH]; simpl; intro H; [reflexivity|].
  apply andb_true_iff in H. destruct H as [Hx Hl].
  now rewrite (get_eq_dict f s x Hx), bind_Ok, (IH Hl).
Qed.

Lemma filter_m_get_ne_dicts (f s : string) (l : list value) :
  forallb is_dict l = true ->
  filter_m (get_ne f (VStr s)) l
  = Ok (filter (fun x => negb (has_field_eq f (VStr s) x)) l).
Proof.
  induction l as [|x l IH]; simpl; intro H; [reflexivity|].
  apply andb_true_iff in H. destruct H as [Hx Hl].
  now rewrite (get_ne_dict f s x Hx), bind_Ok, (IH Hl).
Qed.

Lemma filter_split_length (A : Type) (p : A -> bool) (l : list A) :
  (List.length (filter (fun x => negb (p x)) l) + List.length (filter p l)
   = List.length l)%nat.
Proof.
  induction l as [|x l IH]; simpl; [reflexivity|].
  destruct (p x); simpl; lia.
Qed.

(** The quotient of two lengths, the first not above the second. *)
Lemma rate_of_lengths (c n : nat) (v : value) :
  py_truediv (VLen c) (VLen n) = Ok v -> (c <= n)%nat ->
  exists q, v = VFloat q /\
            (q == inject_Z (Z.of_nat c) / inject_Z (Z.of_nat n))%Q /\
            (0 <= q <= 1)%Q.
Proof.
  intros H Hcn.
  assert (Hn : (0 < n)%nat).
  { destruct n; [|lia]. unfold py_truediv, VLen in H. cbn in H. discriminate. }
  destruct (py_truediv_num _ _ _ H) as (qa & qb & Ha & Hb & ->).
  unfold VLen in Ha, Hb. cbn [num] in Ha, Hb.
  injection Ha as <-. injection Hb as <-.
  eexists. split; [reflexivity|]. split; [apply Qred_correct|].
  rewrite Qred_correct. now apply ratio_in_unit_interval.
Qed.

(** Whenever [calculate_metrics] returns: its open tickets are the
    tickets whose status is not "Resolved"; open and resolved tickets
    together are all tickets; and [resolution_rate] is the share of
    resolved tickets, a number between 0 and 1, or the integer [0] when
    there is no ticket. *)
Theorem dashboard_ticket_figures
        (d : BusinessDashboard.datasets) (m : BusinessDashboard.metrics) :
  BusinessDashboard.calculate_metrics d = Ok m ->
  exists tickets,
    py_iter (BusinessDashboard.support_data d) = Ok tickets /\
    BusinessDashboard.open_tickets m = unresolved tickets /\
    (List.length (BusinessDashboard.open_tickets m)
     + List.length (with_status "Resolved" tickets) = List.length tickets)%nat /\
    match tickets with
    | [] => BusinessDashboard.resolution_rate m = VInt 0
    | _ :: _ =>
        exists q,
          BusinessDashboard.resolution_rate m = VFloat q /\
          (q == inject_Z (Z.of_nat (List.length (with_status "Resolved" tickets)))
                / inject_Z (Z.of_nat (List.length tickets)))%Q /\
          (0 <= q <= 1)%Q
    end.
Proof.
  unfold BusinessDashboard.calculate_metrics. intro H. inv_binds H.
  injection H as <-. cbn [BusinessDashboard.open_tickets BusinessDashboard.resolution_rate].
  unfold comprehension in Hx7. inv_bind Hx7. rename x9 into tickets.
  apply filter_m_get_ne in Hx7. destruct Hx7 as [Hdicts ->].
  fold (unresolved tickets).
  exists tickets. split; [assumption|]. split; [reflexivity|].
  split; [apply filter_split_length|].
  destruct (iter_len_truthy _ _ Hx9) as [Hlen Htruthy].
  rewrite Htruthy in Hx8. destruct tickets as [|t0 tickets'].
  - now injection Hx8 as <-.
  - apply bind_ok in Hx8. destruct Hx8 as (resolved & Hres & Hx8).
    apply bind_ok in Hx8. destruct Hx8 as (len & Hn & Hdiv).
    unfold comprehension in Hres. rewrite Hx9, bind_Ok in Hres.
    apply filter_m_get_eq in Hres. destruct Hres as [_ ->].
    rewrite Hlen in Hn. injection Hn as <-.
    apply rate_of_lengths in Hdiv; [exact Hdiv|].
    apply (filter_length_le _ _ (t0 :: tickets')).
Qed.

(** ** Records the metrics put up with *)

Lemma tolerated_is_dict (f : string) (x : value) :
  tolerated f x = true -> is_dict x = true.
Proof. destruct x; simpl; auto. Qed.

Lemma get_or_zero_tolerated (f : string) (x : value) :
  tolerated f x = true ->
  exists a, get_or_zero f x = Ok a /\ is_number a = true.
Proof.
  unfold tolerated, get_or_zero. destruct x; try discriminate. simpl.
  destruct (dict_get d (KStr f)) as [v|]; intro H; eauto.
Qed.

Lemma sum_gen_tolerated (f : string) (l : list value) :
  forallb (tolerated f) l = true ->
  forall acc, is_number acc = true ->
  exists total,
    sum_gen always (get_or_zero f) l acc = Ok total /\ is_number total = true.
Proof.
  induction l as [|x l IH]; simpl; intros Hl acc Hacc; [eauto|].
  apply andb_true_iff in Hl. destruct Hl as [Hx Hl].
  destruct (get_or_zero_tolerated f x Hx) as (a & Ha & Hna).
  rewrite Ha, bind_Ok.
  destruct (py_add_numbers acc a Hacc Hna) as (c & _ & _ & _ & Hadd & Hc & _).
  rewrite Hadd, bind_Ok. now apply IH.
Qed.

Lemma py_truediv_number (a : value) (n : nat) :
  is_number a = true -> n <> 0%nat ->
  exists q, py_truediv a (VLen n) = Ok (VFloat q).
Proof.
  intros Ha Hn. unfold py_truediv, VLen. cbn [num].
  assert (Hq : exists q, num a = Some q) by (destruct a; try discriminate; simpl; eauto).
  destruct Hq as [q ->]. rewrite (VLen_not_zero n Hn). eauto.
Qed.

Lemma mean_of_numbers (total : value) (l : list value) :
  is_number total = true ->
  exists mean,
    (if py_truthy (VList l) then py_truediv total (VLen (List.length l))
     else Ok (VInt 0)) = Ok mean.
Proof.
  intro Ht. destruct l as [|x l]; [simpl; eauto|].
  destruct (py_truediv_number total (List.length (x :: l)) Ht) as [q Hq];
    [discriminate|].
  cbn [py_truthy]. eauto.
Qed.

Lemma share_of_list (c : nat) (l : list value) :
  exists rate,
    (if py_truthy (VList l)
     then n <- py_len (VList l) ;; py_truediv (VLen c) (VLen n)
     else Ok (VInt 0)) = Ok rate.
Proof.
  destruct l as [|x l]; [simpl; eauto|].
  destruct (py_truediv_lengths c (List.length (x :: l))) as (q & Hq & _);
    [discriminate|].
  cbn [py_truthy py_len]. rewrite bind_Ok. eauto.
Qed.

(** [calculate_metrics] returns on any three lists of objects in which
    an [amount] or a [salary], where there is one, is a number: a
    missing [status], [amount], [salary] or [performance] raises
    nothing. It counts all sales and all employees, keeps the employees
    whose performance is "Excellent" and the tickets whose status is not
    "Resolved" (those without a status among them). *)
Theorem calculate_metrics_tolerates_missing_members
        (sales hr support : list value) :
  forallb (tolerated "amount") sales = true ->
  forallb (tolerated "salary") hr = true ->
  forallb is_dict support = true ->
  exists m,
    BusinessDashboard.calculate_metrics
      {| BusinessDashboard.sales_data := VList sales;
         BusinessDashboard.hr_data := VList hr;
         BusinessDashboard.support_data := VList support |} = Ok m /\
    BusinessDashboard.total_deals m = List.length sales /\
    BusinessDashboard.total_employees m = List.length hr /\
    BusinessDashboard.top_performers m = filter excellent hr /\
    BusinessDashboard.open_tickets m = unresolved support /\
    (forall t, In t support -> has_field "status" t = false ->
               In t (BusinessDashboard.open_tickets m)).
Proof.
  intros Hsales Hhr Hsupport.
  unfold BusinessDashboard.calculate_metrics.
  cbn [BusinessDashboard.sales_data BusinessDashboard.hr_data
       BusinessDashboard.support_data].
  rewrite !comprehension_list.
  rewrite (filter_m_get_eq_dicts "status" "Closed Won" sales), bind_Ok
    by (eapply forallb_weaken; [apply tolerated_is_dict | exact Hsales]).
  set (closed := filter (has_field_eq "status" (VStr "Closed Won")) sales).
  rewrite py_sum_list.
  destruct (sum_gen_tolerated "amount" closed
              (forallb_filter _ _ _ _ Hsales) (VInt 0) eq_refl)
    as (total & -> & Htotal).
  rewrite bind_Ok.
  destruct (mean_of_numbers total closed Htotal) as [mean ->]. rewrite bind_Ok.
  destruct (share_of_list (List.length closed) sales) as [rate ->].
  rewrite bind_Ok. cbn [py_len]. rewrite !bind_Ok.
  rewrite (filter_m_get_eq_dicts "performance" "Excellent" hr), bind_Ok
    by (eapply forallb_weaken; [apply tolerated_is_dict | exact Hhr]).
  assert (Havg : exists avg,
             (if py_truthy (VList hr)
              then salaries <- py_sum (VList hr) always (get_or_zero "salary") ;;
                   n <- Ok (List.length hr) ;;
                   py_truediv salaries (VLen n)
              else Ok (VInt 0)) = Ok avg).
  { destruct hr as [|e hr']; [simpl; eauto|].
    rewrite py_sum_list.
    destruct (sum_gen_tolerated "salary" (e :: hr') Hhr (VInt 0) eq_refl)
      as (salaries & -> & Hsal).
    cbn [py_truthy]. rewrite !bind_Ok.
    destruct (py_truediv_number salaries (List.length (e :: hr')) Hsal) as [q Hq];
      [discriminate|].
    eauto. }
  destruct Havg as [avg ->]. rewrite bind_Ok.
  rewrite (filter_m_get_ne_dicts "status" "Resolved" support Hsupport), bind_Ok.
  assert (Hrate : exists rr,
             (if py_truthy (VList support)
              then resolved <- filter_m (get_eq "status" (VStr "Resolved")) support ;;
                   n <- Ok (List.length support) ;;
                   py_truediv (VLen (List.length resolved)) (VLen n)
              else Ok (VInt 0)) = Ok rr).
  { destruct support as [|t support']; [simpl; eauto|].
    rewrite (filter_m_get_eq_dicts "status" "Resolved" _ Hsupport).
    cbn [py_truthy]. rewrite !bind_Ok.
    destruct (py_truediv_lengths
                (List.length (filter (has_field_eq "status" (VStr "Resolved"))
                                     (t :: support')))
                (List.length (t :: support'))) as (q & Hq & _); [discriminate|].
    eauto. }
  destruct Hrate as [rr ->]. rewrite bind_Ok.
  eexists. split; [reflexivity|].
  cbn [BusinessDashboard.total_deals BusinessDashboard.total_employees
       BusinessDashboard.top_performers BusinessDashboard.open_tickets].
  repeat (split; [reflexivity|]).
  intros t Hin Hstatus. unfold unresolved. apply filter_In. split; [exact Hin|].
  unfold has_field in Hstatus. unfold has_field_eq.
  destruct (get_field "status" t); [discriminate | reflexivity].
Qed.

(** ** The dashboard's sales figures *)

Lemma amount_or_zero_spec (x a : value) (q : Q) :
  get_or_zero "amount" x = Ok a -> num a = Some q -> q = amount_of x.
Proof.
  unfold get_or_zero, amount_of, get_field. destruct x; simpl; try discriminate.
  destruct (dict_get d (KStr "amount")) as [v|]; intros H Hq; injection H as <-.
  - now rewrite Hq.
  - simpl in Hq. now injection Hq as <-.
Qed.

Lemma sum_gen_number (cond : value -> res bool) (f : value -> res value)
      (l : list value) :
  forall acc total,
    is_number acc = true -> sum_gen cond f l acc = Ok total ->
    is_number total = true.
Proof.
  induction l as [|x l IH]; simpl; intros acc total Hacc H.
  - now injection H as <-.
  - inv_bind H. destruct x0; [|eauto]. inv_binds H.
    apply (IH x1 total); [|exact H].
    unfold py_add in Hx1.
    destruct (int_val acc), (int_val x0), (num acc), (num x0);
      try discriminate; now injection Hx1 as <-.
Qed.

(** Whenever [calculate_metrics] returns: [total_deals] is the number
    of sales; [total_revenue] is the sum of the amounts of the sales
    whose status is "Closed Won", a sale without an amount counting for
    nothing; [avg_deal_size] is that sum over their number, or the
    integer [0] when there is none; and [win_rate] is their share of
    all sales, between 0 and 1, or the integer [0] without sales. *)
Theorem dashboard_sales_figures
        (d : BusinessDashboard.datasets) (m : BusinessDashboard.metrics) :
  BusinessDashboard.calculate_metrics d = Ok m ->
  exists sales revenue,
    py_iter (BusinessDashboard.sales_data d) = Ok sales /\
    BusinessDashboard.total_deals m = List.length sales /\
    num (BusinessDashboard.total_revenue m) = Some revenue /\
    (revenue == revenue_of "Closed Won" sales)%Q /\
    match with_status "Closed Won" sales with
    | [] => BusinessDashboard.avg_deal_size m = VInt 0
    | _ :: _ =>
        exists q,
          BusinessDashboard.avg_deal_size m = VFloat q /\
          (q == revenue
                / inject_Z (Z.of_nat (List.length (with_status "Closed Won" sales))))%Q
    end /\
    match sales with
    | [] => BusinessDashboard.win_rate m = VInt 0
    | _ :: _ =>
        exists q,
          BusinessDashboard.win_rate m = VFloat q /\
          (q == inject_Z (Z.of_nat (List.length (with_status "Closed Won" sales)))
                / inject_Z (Z.of_nat (List.length sales)))%Q /\
          (0 <= q <= 1)%Q
    end.
Proof.
  unfold BusinessDashboard.calculate_metrics. intro H.
  apply bind_ok in H. destruct H as (closed & Hclosed & H).
  apply bind_ok in H. destruct H as (total & Htotal & H).
  apply bind_ok in H. destruct H as (mean & Hmean & H).
  apply bind_ok in H. destruct H as (rate & Hrate & H).
  apply bind_ok in H. destruct H as (deals & Hdeals & H).
  inv_binds H. injection H as <-.
  cbn [BusinessDashboard.total_deals BusinessDashboard.total_revenue
       BusinessDashboard.avg_deal_size BusinessDashboard.win_rate].
  unfold comprehension in Hclosed.
  apply bind_ok in Hclosed. destruct Hclosed as (sales & Hiter & Hclosed).
  apply filter_m_get_eq in Hclosed. destruct Hclosed as [_ ->].
  fold (with_status "Closed Won" sales) in *.
  destruct (iter_len_truthy _ _ Hiter) as [Hlen Htruthy].
  rewrite Hlen in Hdeals. injection Hdeals as <-.
  rewrite py_sum_list in Htotal.
  destruct (sum_gen_value always (get_or_zero "amount") (fun _ => true) amount_of
              (with_status "Closed Won" sales) always_spec amount_or_zero_spec
              (VInt 0) total 0%Q eq_refl Htotal) as (revenue & Hrev & Heq).
  rewrite filter_all in Heq.
  exists sales, revenue. split; [exact Hiter|]. split; [reflexivity|].
  split; [exact Hrev|]. split; [unfold revenue_of; rewrite Heq; ring|].
  split.
  - remember (with_status "Closed Won" sales) as won eqn:Ewon.
    destruct won as [|w won']; [now injection Hmean as <-|].
    cbn [py_truthy] in Hmean.
    remember (List.length (w :: won')) as c eqn:Ec.
    destruct (py_truediv_num _ _ _ Hmean) as (qa & qb & Ha & Hb & ->).
    unfold VLen in Hb. cbn [num] in Hb. injection Hb as <-.
    assert (qa = revenue) by congruence. subst qa.
    eexists. split; [reflexivity | apply Qred_correct].
  - rewrite Htruthy in Hrate. destruct sales as [|s0 sales'].
    + now injection Hrate as <-.
    + apply bind_ok in Hrate. destruct Hrate as (n & Hn & Hdiv).
      rewrite Hlen in Hn. injection Hn as <-.
      apply rate_of_lengths in Hdiv; [exact Hdiv|].
      apply (filter_length_le _ _ (s0 :: sales')).
Qed.

(** ** The dashboard and the server's revenue summary *)

Lemma field_eq_get_eq (f : string) (v x : value) (b : bool) :
  field_eq f v x = Ok b -> get_eq f v x = Ok b.
Proof.
  unfold field_eq, get_eq. destruct x; simpl; try discriminate.
  destruct (dict_get d (KStr f)); simpl; [auto | discriminate].
Qed.

Lemma filter_m_field_get (f : string) (v : value) (l l' : list value) :
  filter_m (field_eq f v) l = Ok l' -> filter_m (get_eq f v) l = Ok l'.
Proof.
  revert l'. induction l as [|x l IH]; simpl; intros l' H; [exact H|].
  inv_binds H. rewrite (field_eq_get_eq _ _ _ _ Hx), bind_Ok.
  rewrite (IH _ Hx0), bind_Ok. exact H.
Qed.

Lemma field_get_or_zero (f : string) (x a : value) :
  field f x = Ok a -> get_or_zero f x = Ok a.
Proof.
  unfold field, get_or_zero. destruct x; simpl; try discriminate.
  destruct (dict_get d (KStr f)); [auto | discriminate].
Qed.

Lemma sum_gen_field_get (f : string) (l : list value) :
  forall acc total,
    sum_gen always (field f) l acc = Ok total ->
    sum_gen always (get_or_zero f) l acc = Ok total.
Proof.
  induction l as [|x l IH]; simpl; intros acc total H; [exact H|].
  inv_binds H. rewrite (field_get_or_zero _ _ _ Hx), bind_Ok.
  rewrite Hx0, bind_Ok. now apply IH.
Qed.

Lemma salary_mean_returns (hr : list value) :
  forallb (tolerated "salary") hr = true ->
  exists avg,
    (if py_truthy (VList hr)
     then salaries <- py_sum (VList hr) always (get_or_zero "salary") ;;
          n <- py_len (VList hr) ;;
          py_truediv salaries (VLen n)
     else Ok (VInt 0)) = Ok avg.
Proof.
  intro Hhr. destruct hr as [|e hr']; [simpl; eauto|].
  rewrite py_sum_list.
  destruct (sum_gen_tolerated "salary" (e :: hr') Hhr (VInt 0) eq_refl)
    as (salaries & -> & Hsal).
  cbn [py_truthy py_len]. rewrite !bind_Ok.
  destruct (py_truediv_number salaries (List.length (e :: hr')) Hsal) as [q Hq];
    [discriminate|].
  eauto.
Qed.

Lemma resolution_rate_returns (support : list value) :
  forallb is_dict support = true ->
  exists rate,
    (if py_truthy (VList support)
     then resolved <- comprehension (VList support)
                        (get_eq "status" (VStr "Resolved")) ;;
          n <- py_len (VList support) ;;
          py_truediv (VLen (List.length resolved)) (VLen n)
     else Ok (VInt 0)) = Ok rate.
Proof.
  intro Hsupport. destruct support as [|t support']; [simpl; eauto|].
  rewrite comprehension_list.
  rewrite (filter_m_get_eq_dicts "status" "Resolved" _ Hsupport).
  cbn [py_truthy py_len]. rewrite !bind_Ok.
  destruct (py_truediv_lengths
              (List.length (filter (has_field_eq "status" (VStr "Resolved"))
                                   (t :: support')))
              (List.length (t :: support'))) as (q & Hq & _); [discriminate|].
  eauto.
Qed.

(** On the sales the server reads, whenever the server's
    [get_revenue_summary] returns, the dashboard's [calculate_metrics]
    returns too (the other two datasets being lists of objects with
    numeric salaries), and its [total_revenue] and [win_rate] are the
    [total_closed_revenue] and the [win_rate] of the server's
    summary. *)
Theorem dashboard_agrees_with_revenue_summary
        (fs : files) (d : BusinessDashboard.datasets) (hr support : list value)
        (r : value) :
  load_data fs "sales.json" = Ok (BusinessDashboard.sales_data d) ->
  BusinessDashboard.hr_data d = VList hr ->
  forallb (tolerated "salary") hr = true ->
  BusinessDashboard.support_data d = VList support ->
  forallb is_dict support = true ->
  get_revenue_summary fs = Ok r ->
  exists m,
    BusinessDashboard.calculate_metrics d = Ok m /\
    py_getitem r "total_closed_revenue" = Ok (BusinessDashboard.total_revenue m) /\
    py_getitem r "win_rate" = Ok (BusinessDashboard.win_rate m).
Proof.
  intros Hload Hhr Hsal Hsupport Hdicts H.
  unfold get_revenue_summary in H. rewrite Hload, bind_Ok in H.
  apply bind_ok in H. destruct H as (closed & Hclosed & H).
  apply bind_ok in H. destruct H as (in_progress & _ & H).
  apply bind_ok in H. destruct H as (lost & _ & H).
  apply bind_ok in H. destruct H as (total & Htotal & H).
  apply bind_ok in H. destruct H as (potential & _ & H).
  apply bind_ok in H. destruct H as (rate & Hrate & H).
  apply bind_ok in H. destruct H as (revenue_text & _ & H).
  apply bind_ok in H. destruct H as (rate_text & _ & H).
  injection H as <-.
  unfold comprehension in Hclosed.
  apply bind_ok in Hclosed. destruct Hclosed as (sales & Hiter & Hclosed).
  destruct (iter_len_truthy _ _ Hiter) as [Hlen _].
  unfold BusinessDashboard.calculate_metrics, comprehension at 1.
  rewrite Hiter, bind_Ok, (filter_m_field_get _ _ _ _ Hclosed), bind_Ok.
  rewrite py_sum_list in Htotal |- *.
  rewrite (sum_gen_field_get _ _ _ _ Htotal), bind_Ok.
  destruct (mean_of_numbers total closed
              (sum_gen_number always (field "amount") closed (VInt 0) total
                 eq_refl Htotal)) as [mean ->].
  rewrite bind_Ok, Hrate, bind_Ok, Hlen, bind_Ok.
  rewrite Hhr, Hsupport. cbn [py_len]. rewrite bind_Ok.
  rewrite comprehension_list.
  rewrite (filter_m_get_eq_dicts "performance" "Excellent" hr), bind_Ok
    by (eapply forallb_weaken; [apply tolerated_is_dict | exact Hsal]).
  destruct (salary_mean_returns hr Hsal) as [avg Havg].
  cbn [py_len] in Havg. rewrite Havg, bind_Ok.
  rewrite comprehension_list.
  rewrite (filter_m_get_ne_dicts "status" "Resolved" support Hdicts), bind_Ok.
  destruct (resolution_rate_returns support Hdicts) as [rr Hrr].
  cbn [py_len] in Hrr. rewrite Hrr, bind_Ok.
  eexists. split; [reflexivity|]. split; reflexivity.
Qed.
